(** * AdminService: the role reconciliation workflow

    A shallow embedding of [AdminService] (the admin service of the
    front end) and the properties of its admin-check, role-sync and
    role-mutation methods.

    The service is a thin layer over a remote authority: every method
    awaits one or more remote calls, inspects the answer with JavaScript's
    dynamic rules (truthiness, strict equality, property reads that fail on
    [null] and [undefined]) and wraps the whole in a [try]/[catch].  The
    embedding keeps those three ingredients explicit:

    - [value] is the fragment of JavaScript values the remote authority can
      send back;
    - [prog] is the type of finite asynchronous computations: return, throw,
      await a remote call, write to the console;
    - [run] executes a computation against an arbitrary stateful remote
      authority and records the calls that were made. *)

From Stdlib Require Import String List Bool ZArith Lia Permutation.
From ExtLib Require Import Structures.Monad Structures.MonadExc.
Import ListNotations.
Import MonadNotation.
Local Open Scope string_scope.
Local Open Scope monad_scope.

(* ===================================================================== *)
(** * JavaScript values *)
(* ===================================================================== *)

Module Js.

(** [instanceof Error] only needs to tell error objects from the rest. *)
Inductive class : Type :=
| Plain
| ErrorInstance.

(** Numbers are the integers and [NaN]; objects are property lists in
    which the first binding of a name is the one that is read. *)
#[local] Set Warnings "-register-all".
Inductive value : Type :=
| VUndefined
| VNull
| VBool (b : bool)
| VNum (z : Z)
| VNaN
| VStr (s : string)
| VObj (c : class) (props : list (string * value)).

(** ToBoolean: what [if (v)], [!v] and [v || w] look at. *)
Definition truthy (v : value) : bool :=
  match v with
  | VUndefined | VNull | VNaN => false
  | VBool b => b
  | VNum z => negb (Z.eqb z 0)
  | VStr s => negb (String.eqb s "")
  | VObj _ _ => true
  end.

(** [v === w] against a primitive: objects are compared by identity and
    never equal a literal, and [NaN] equals nothing. *)
Definition strict_equals (v w : value) : bool :=
  match v, w with
  | VUndefined, VUndefined => true
  | VNull, VNull => true
  | VBool a, VBool b => Bool.eqb a b
  | VNum a, VNum b => Z.eqb a b
  | VStr a, VStr b => String.eqb a b
  | _, _ => false
  end.

(** [a || b] on values. *)
Definition or_else (a b : value) : value :=
  if truthy a then a else b.

Fixpoint lookup (p : string) (props : list (string * value)) : value :=
  match props with
  | [] => VUndefined
  | (q, v) :: rest => if String.eqb p q then v else lookup p rest
  end.

(** [null] and [undefined] have no properties: reading one throws. *)
Definition nullish (v : value) : bool :=
  match v with
  | VUndefined | VNull => true
  | _ => false
  end.

(** [v.p] for a value that is not nullish. *)
Definition get (v : value) (p : string) : value :=
  match v with
  | VObj _ props => lookup p props
  | VStr s =>
      if String.eqb p "length" then VNum (Z.of_nat (String.length s))
      else VUndefined
  | _ => VUndefined
  end.

Definition instanceof_Error (v : value) : bool :=
  match v with
  | VObj ErrorInstance _ => true
  | _ => false
  end.

(** The exception the engine raises for a property read or a
    destructuring of [null] or [undefined]. *)
Definition TypeError (p : string) : value :=
  VObj ErrorInstance
    [("name", VStr "TypeError");
     ("message", VStr ("Cannot read properties of null or undefined: " ++ p))].

(** An object literal. *)
Definition obj (props : list (string * value)) : value := VObj Plain props.

(** [new Error(msg)]. *)
Definition new_Error (msg : string) : value :=
  VObj ErrorInstance [("name", VStr "Error"); ("message", VStr msg)].

End Js.
Import Js.

(* ===================================================================== *)
(** * Asynchronous computations *)
(* ===================================================================== *)

(** The remote operations the service awaits: the session accessor
    [supabase.auth.getSession()] and the remote procedures
    [supabase.rpc(fn, args)]. *)
Inductive remote_call : Type :=
| GetSession
| Rpc (fn : string) (args : value).

(** An awaited call either resolves to a value or rejects with one. *)
Inductive outcome : Type :=
| Resolved (v : value)
| Rejected (e : value).

Inductive level : Type :=
| LogLevel
| ErrorLevel.

(** Finite computations over the remote authority and the console. *)
Inductive prog (A : Type) : Type :=
| Ret (a : A)
| Throw (e : value)
| Await (c : remote_call) (k : outcome -> prog A)
| Console (l : level) (args : list value) (k : prog A).

Arguments Ret {A} a.
Arguments Throw {A} e.
Arguments Await {A} c k.
Arguments Console {A} l args k.

Fixpoint prog_bind {A B : Type} (p : prog A) (f : A -> prog B) : prog B :=
  match p with
  | Ret a => f a
  | Throw e => Throw e
  | Await c k => Await c (fun o => prog_bind (k o) f)
  | Console l args k => Console l args (prog_bind k f)
  end.

(** [try { p } catch (e) { h e }] *)
Fixpoint try_catch {A : Type} (p : prog A) (h : value -> prog A) : prog A :=
  match p with
  | Ret a => Ret a
  | Throw e => h e
  | Await c k => Await c (fun o => try_catch (k o) h)
  | Console l args k => Console l args (try_catch k h)
  end.

#[export] Instance Monad_prog : Monad prog :=
  {| ret := @Ret; bind := @prog_bind |}.

#[export] Instance MonadExc_prog : MonadExc value prog :=
  {| raise := @Throw; catch := @try_catch |}.

(** [await c]: a rejection is rethrown at the [await]. *)
Definition await (c : remote_call) : prog value :=
  Await c (fun o =>
    match o with
    | Resolved v => Ret v
    | Rejected e => Throw e
    end).

Definition console_log (args : list value) : prog unit :=
  Console LogLevel args (Ret tt).

Definition console_error (args : list value) : prog unit :=
  Console ErrorLevel args (Ret tt).

(** [v.p] as a step of a computation. *)
Definition member (v : value) (p : string) : prog value :=
  if nullish v then raise (TypeError p) else ret (get v p).

(** [const { data, error } = v] *)
Definition destructure_data_error (v : value) : prog (value * value) :=
  data <- member v "data" ;;
  error <- member v "error" ;;
  ret (data, error).

(** [const { data: { session }, error: sessionError } = v] *)
Definition destructure_session (v : value) : prog (value * value) :=
  data <- member v "data" ;;
  session <- member data "session" ;;
  sessionError <- member v "error" ;;
  ret (session, sessionError).

(* ===================================================================== *)
(** * Data model *)
(* ===================================================================== *)

(** [interface RoleOperationResult] *)
Record RoleOperationResult : Type := {
  success : bool;
  message : string;
  user_id : option string;
  user_email : option string
}.

(** [interface AdminStatus]: the snapshot [debug_admin_status] answers
    with.  Fields typed [string | null] are options sent as [null];
    fields marked [?] are options that are left out when absent. *)
Record AdminStatus : Type := {
  authenticated : bool;
  status_user_id : option string;
  status_user_email : option string;
  profile_exists : bool;
  profile_role : option string;
  metadata_role : option string;
  is_admin_result : bool;
  timestamp : string;
  status_message : option string;
  raw_metadata : option value
}.

(** The verdict of [verifyAndFixAdminAccess]:
    [{ success: boolean; message: string }]. *)
Record Verdict : Type := {
  verdict_success : bool;
  verdict_message : string
}.

Definition nullable (o : option string) : value :=
  match o with
  | Some s => VStr s
  | None => VNull
  end.

Definition optional (name : string) (o : option value)
  : list (string * value) :=
  match o with
  | Some v => [(name, v)]
  | None => []
  end.

Definition result_value (r : RoleOperationResult) : value :=
  obj ([("success", VBool (success r)); ("message", VStr (message r))]
       ++ optional "user_id" (option_map VStr (user_id r))
       ++ optional "user_email" (option_map VStr (user_email r))).

Definition status_value (s : AdminStatus) : value :=
  obj ([("authenticated", VBool (authenticated s));
        ("user_id", nullable (status_user_id s));
        ("user_email", nullable (status_user_email s));
        ("profile_exists", VBool (profile_exists s));
        ("profile_role", nullable (profile_role s));
        ("metadata_role", nullable (metadata_role s));
        ("is_admin_result", VBool (is_admin_result s));
        ("timestamp", VStr (timestamp s))]
       ++ optional "message" (option_map VStr (status_message s))
       ++ optional "raw_metadata" (raw_metadata s)).

(** The shape every answer of the authority has: [{ data, error }]. *)
Definition response (data error : value) : value :=
  obj [("data", data); ("error", error)].

(** The answer of the session accessor: [{ data: { session }, error }]. *)
Definition session_response (session error : value) : value :=
  response (obj [("session", session)]) error.

(** A session object as far as the service reads it: [session.user.id]. *)
Definition session_value (userId : string) : value :=
  obj [("user", obj [("id", VStr userId)])].

(** Is [v] a [RoleOperationResult]?  A boolean [success], a string
    [message], and [user_id] and [user_email] strings when present. *)
Definition is_string (v : value) : bool :=
  match v with
  | VStr _ => true
  | _ => false
  end.

Definition is_boolean (v : value) : bool :=
  match v with
  | VBool _ => true
  | _ => false
  end.

Definition is_optional_string (v : value) : bool :=
  match v with
  | VUndefined | VStr _ => true
  | _ => false
  end.

Definition is_RoleOperationResult (v : value) : bool :=
  match v with
  | VObj _ _ =>
      is_boolean (get v "success") && is_string (get v "message")
      && is_optional_string (get v "user_id")
      && is_optional_string (get v "user_email")
  | _ => false
  end.

(** The counts [getUserStats] returns. *)
Record UserStats : Type := {
  totalUsers : nat;
  totalAdmins : nat;
  totalClients : nat;
  activeUsers : nat
}.

(** The outcome of the table query
    [supabase.from('user_profiles').select('role, is_active')]: an answer
    [{ data, error }] whose [data] is the array of rows or [null], or a
    rejection. *)
Inductive select_outcome : Type :=
| Selected (data : option (list value)) (error : value)
| SelectRejected (e : value).

(** A row [{ role, is_active }] of [user_profiles]. *)
Definition profile_row (role : string) (is_active : bool) : value :=
  obj [("role", VStr role); ("is_active", VBool is_active)].

(** A parameter with a default value takes it when the argument is
    [undefined], and only then. *)
Definition default_parameter (arg dflt : value) : value :=
  match arg with
  | VUndefined => dflt
  | _ => arg
  end.

(* ===================================================================== *)
(** * The service *)
(* ===================================================================== *)

Module AdminService.

(** [isCurrentUserAdmin()] *)
Definition isCurrentUserAdmin : prog bool :=
  catch
    (resp <- await (Rpc "is_current_user_admin" VUndefined) ;;
     '(data, error) <- destructure_data_error resp ;;
     if truthy error then
       console_error [VStr "AdminService: Error checking admin status:"; error] ;;
       ret false
     else
       ret (strict_equals data (VBool true)))
    (fun error =>
       console_error [VStr "AdminService: Error in isCurrentUserAdmin:"; error] ;;
       ret false).

(** [getAdminStatus()]: the snapshot as the authority sent it, or [null]. *)
Definition getAdminStatus : prog value :=
  catch
    (console_log [VStr "AdminService: Fetching detailed admin status..."] ;;
     resp <- await (Rpc "debug_admin_status" VUndefined) ;;
     '(data, error) <- destructure_data_error resp ;;
     if truthy error then
       console_error [VStr "AdminService: Error getting admin status:"; error] ;;
       ret VNull
     else
       console_log [VStr "AdminService: Admin status:"; data] ;;
       ret data)
    (fun error =>
       console_error [VStr "AdminService: Error in getAdminStatus:"; error] ;;
       ret VNull).

(** The request [syncAdminRole(userId)] sends. *)
Definition sync_request (userId : value) : remote_call :=
  Rpc "sync_user_admin_role" (obj [("target_user_id", userId)]).

(** [syncAdminRole(userId)] *)
Definition syncAdminRole (userId : value) : prog bool :=
  catch
    (console_log [VStr "AdminService: Syncing admin role for user:"; userId] ;;
     resp <- await (sync_request userId) ;;
     '(data, error) <- destructure_data_error resp ;;
     if truthy error then
       console_error [VStr "AdminService: Error syncing admin role:"; error] ;;
       ret false
     else
       console_log [VStr "AdminService: Admin role synced successfully:"; data] ;;
       ret true)
    (fun error =>
       console_error [VStr "AdminService: Error in syncAdminRole:"; error] ;;
       ret false).

(** The verdicts of [verifyAndFixAdminAccess]. *)
Definition no_session : Verdict :=
  {| verdict_success := false;
     verdict_message := "No active session. Please log in." |}.

Definition status_unavailable : Verdict :=
  {| verdict_success := false;
     verdict_message := "Failed to check admin status." |}.

Definition not_authenticated : Verdict :=
  {| verdict_success := false;
     verdict_message := "User is not authenticated." |}.

Definition verified : Verdict :=
  {| verdict_success := true;
     verdict_message := "Admin access verified successfully." |}.

Definition synced_verdict : Verdict :=
  {| verdict_success := true;
     verdict_message :=
       "Admin role synced. Please refresh the page or log out and log back in." |}.

Definition privileges_not_found : Verdict :=
  {| verdict_success := false;
     verdict_message :=
       "Admin privileges not found. Contact support if you should have admin access." |}.

Definition verification_failed : Verdict :=
  {| verdict_success := false;
     verdict_message := "Failed to verify admin access." |}.

(** [adminStatus.metadata_role === 'admin' &&
     adminStatus.profile_role !== 'admin'], the second read only made when
    the first test holds. *)
Definition role_mismatch (adminStatus : value) : prog bool :=
  metadata_role <- member adminStatus "metadata_role" ;;
  if strict_equals metadata_role (VStr "admin") then
    profile_role <- member adminStatus "profile_role" ;;
    ret (negb (strict_equals profile_role (VStr "admin")))
  else
    ret false.

(** The [try] block of [verifyAndFixAdminAccess]. *)
Definition verifyAndFixAdminAccess_body : prog Verdict :=
  console_log [VStr "AdminService: Verifying admin access..."] ;;
  resp <- await GetSession ;;
  '(session, sessionError) <- destructure_session resp ;;
  if truthy sessionError || negb (truthy session) then
    ret no_session
  else
    adminStatus <- getAdminStatus ;;
    if negb (truthy adminStatus) then
      ret status_unavailable
    else
      authenticated <- member adminStatus "authenticated" ;;
      if negb (truthy authenticated) then
        ret not_authenticated
      else
        is_admin_result <- member adminStatus "is_admin_result" ;;
        if truthy is_admin_result then
          ret verified
        else
          mismatch <- role_mismatch adminStatus ;;
          if (mismatch : bool) then
            console_log
              [VStr "AdminService: Role mismatch detected. Attempting to sync..."] ;;
            user <- member session "user" ;;
            userId <- member user "id" ;;
            synced <- syncAdminRole userId ;;
            if (synced : bool) then ret synced_verdict
            else ret privileges_not_found
          else
            ret privileges_not_found.

(** [verifyAndFixAdminAccess()] *)
Definition verifyAndFixAdminAccess : prog Verdict :=
  catch verifyAndFixAdminAccess_body
    (fun error =>
       console_error
         [VStr "AdminService: Error in verifyAndFixAdminAccess:"; error] ;;
       ret verification_failed).

(** The object literal [{ success: false, message }] of the failure
    branches of the role mutations. *)
Definition failure (message : value) : value :=
  obj [("success", VBool false); ("message", message)].

(** [grantAdminRole(userId)] *)
Definition grantAdminRole (userId : value) : prog value :=
  catch
    (resp <- await (Rpc "grant_admin_role" (obj [("target_user_id", userId)])) ;;
     '(data, error) <- destructure_data_error resp ;;
     if truthy error then
       console_error [VStr "Error granting admin role:"; error] ;;
       message <- member error "message" ;;
       ret (failure (or_else message (VStr "Failed to grant admin role")))
     else
       ret data)
    (fun error =>
       console_error [VStr "Error in grantAdminRole:"; error] ;;
       if instanceof_Error error then
         message <- member error "message" ;;
         ret (failure message)
       else
         ret (failure (VStr "Failed to grant admin role"))).

(** [revokeAdminRole(userId)] *)
Definition revokeAdminRole (userId : value) : prog value :=
  catch
    (resp <- await (Rpc "revoke_admin_role" (obj [("target_user_id", userId)])) ;;
     '(data, error) <- destructure_data_error resp ;;
     if truthy error then
       console_error [VStr "Error revoking admin role:"; error] ;;
       message <- member error "message" ;;
       ret (failure (or_else message (VStr "Failed to revoke admin role")))
     else
       ret data)
    (fun error =>
       console_error [VStr "Error in revokeAdminRole:"; error] ;;
       if instanceof_Error error then
         message <- member error "message" ;;
         ret (failure message)
       else
         ret (failure (VStr "Failed to revoke admin role"))).

(** The read side of the service.  [ToString] is the conversion the
    engine applies to a message that is not a string already; it returns
    the text, or the error the conversion throws. *)
Section Queries.

Variable ToString : value -> string + value.

(** [new Error(message)]: a string is the message as it is, and without
    argument the message reads as the empty string. *)
Definition construct_Error (message : value) : prog value :=
  match message with
  | VStr text => ret (new_Error text)
  | VUndefined => ret (new_Error "")
  | _ =>
      match ToString message with
      | inl text => ret (new_Error text)
      | inr e => raise e
      end
  end.

(** [getAllAdmins()] *)
Definition getAllAdmins : prog value :=
  catch
    (resp <- await (Rpc "get_all_admins" VUndefined) ;;
     '(data, error) <- destructure_data_error resp ;;
     if truthy error then
       console_error [VStr "Error fetching admins:"; error] ;;
       message <- member error "message" ;;
       e <- construct_Error (or_else message (VStr "Failed to fetch admin users")) ;;
       raise e
     else
       ret data)
    (fun error =>
       console_error [VStr "Error in getAllAdmins:"; error] ;;
       raise error).

(** The request [getAllUsers] sends. *)
Definition users_request (searchQuery roleFilter limitCount offsetCount : value)
  : remote_call :=
  Rpc "get_all_users"
    (obj [("search_query", searchQuery);
          ("role_filter", roleFilter);
          ("limit_count", limitCount);
          ("offset_count", offsetCount)]).

(** [getAllUsers(searchQuery = '', roleFilter = 'all', limitCount = 50,
    offsetCount = 0)] *)
Definition getAllUsers (searchQuery roleFilter limitCount offsetCount : value)
  : prog value :=
  let searchQuery := default_parameter searchQuery (VStr "") in
  let roleFilter := default_parameter roleFilter (VStr "all") in
  let limitCount := default_parameter limitCount (VNum 50) in
  let offsetCount := default_parameter offsetCount (VNum 0) in
  catch
    (resp <- await (users_request searchQuery roleFilter limitCount offsetCount) ;;
     '(data, error) <- destructure_data_error resp ;;
     if truthy error then
       console_error [VStr "Error fetching users:"; error] ;;
       message <- member error "message" ;;
       e <- construct_Error (or_else message (VStr "Failed to fetch users")) ;;
       raise e
     else
       ret data)
    (fun error =>
       console_error [VStr "Error in getAllUsers:"; error] ;;
       raise error).

End Queries.

(** [data.filter(keep)]: the rows are visited in order and a callback
    that throws ends the visit. *)
Fixpoint filter_rows (keep : value -> prog bool) (rows : list value)
  : prog (list value) :=
  match rows with
  | [] => ret []
  | u :: rest =>
      kept <- keep u ;;
      others <- filter_rows keep rest ;;
      ret (if (kept : bool) then u :: others else others)
  end.

(** [u => u.role === 'admin'], [u => u.role === 'client'] and
    [u => u.is_active], the last with the truthiness [filter] applies. *)
Definition is_admin_row (u : value) : prog bool :=
  role <- member u "role" ;;
  ret (strict_equals role (VStr "admin")).

Definition is_client_row (u : value) : prog bool :=
  role <- member u "role" ;;
  ret (strict_equals role (VStr "client")).

Definition is_active_row (u : value) : prog bool :=
  is_active <- member u "is_active" ;;
  ret (truthy is_active).

(** [data.length], [data] being the array or [null]. *)
Definition data_length (data : option (list value)) : prog nat :=
  match data with
  | Some rows => ret (List.length rows)
  | None => raise (TypeError "length")
  end.

(** [data.filter(keep).length] *)
Definition count_rows (keep : value -> prog bool) (data : option (list value))
  : prog nat :=
  match data with
  | Some rows =>
      kept <- filter_rows keep rows ;;
      ret (List.length kept)
  | None => raise (TypeError "filter")
  end.

(** [getUserStats()] from the outcome of its table query, which is not
    one of the calls of [remote_call]. *)
Definition getUserStats (answer : select_outcome) : prog UserStats :=
  catch
    (match answer with
     | SelectRejected e => raise e
     | Selected data error =>
         if truthy error then
           console_error [VStr "Error fetching user stats:"; error] ;;
           raise (new_Error "Failed to fetch user statistics")
         else
           totalUsers <- data_length data ;;
           totalAdmins <- count_rows is_admin_row data ;;
           totalClients <- count_rows is_client_row data ;;
           activeUsers <- count_rows is_active_row data ;;
           ret {| totalUsers := totalUsers;
                  totalAdmins := totalAdmins;
                  totalClients := totalClients;
                  activeUsers := activeUsers |}
     end)
    (fun error =>
       console_error [VStr "Error in getUserStats:"; error] ;;
       raise error).

End AdminService.

(** The service as shipped under [src/services/adminService.ts], whose
    [isCurrentUserAdmin] logs under other texts. *)
Module AdminServiceBase.

(** [isCurrentUserAdmin()] *)
Definition isCurrentUserAdmin : prog bool :=
  catch
    (resp <- await (Rpc "is_current_user_admin" VUndefined) ;;
     '(data, error) <- destructure_data_error resp ;;
     if truthy error then
       console_error [VStr "Error checking admin status:"; error] ;;
       ret false
     else
       ret (strict_equals data (VBool true)))
    (fun error =>
       console_error [VStr "Error in isCurrentUserAdmin:"; error] ;;
       ret false).

End AdminServiceBase.

(* ===================================================================== *)
(** * Running a computation against the remote authority *)
(* ===================================================================== *)

(** How a computation ends. *)
Inductive result (A : Type) : Type :=
| Returned (a : A)
| Raised (e : value).

Arguments Returned {A} a.
Arguments Raised {A} e.

(** What a run leaves behind: the calls with their outcomes and the
    console lines, in the order they happened. *)
Inductive event : Type :=
| Called (c : remote_call) (o : outcome)
| Logged (l : level) (args : list value).

Definition trace : Type := list event.

(** The calls of a trace, in order, without their outcomes and without
    the console lines. *)
Fixpoint calls (tr : trace) : list remote_call :=
  match tr with
  | [] => []
  | Called c _ :: rest => c :: calls rest
  | Logged _ _ :: rest => calls rest
  end.

Definition is_rpc (fn : string) (c : remote_call) : bool :=
  match c with
  | Rpc g _ => String.eqb fn g
  | GetSession => false
  end.

(** How many times procedure [fn] was called. *)
Definition count_rpc (fn : string) (tr : trace) : nat :=
  List.length (List.filter (is_rpc fn) (calls tr)).

Definition sync_requests (tr : trace) : nat :=
  count_rpc "sync_user_admin_role" tr.

Definition snapshot_fetches (tr : trace) : nat :=
  count_rpc "debug_admin_status" tr.

(** The remote authority is any state machine answering the calls. *)
Record authority : Type := {
  world : Type;
  respond : world -> remote_call -> outcome * world
}.

Record run_state (R : authority) (A : Type) : Type := {
  result_of : result A;
  trace_of : trace;
  world_of : world R
}.

Arguments result_of {R A} r.
Arguments trace_of {R A} r.
Arguments world_of {R A} r.

Definition logged {R : authority} {A : Type} (ev : event)
  (r : run_state R A) : run_state R A :=
  {| result_of := result_of r;
     trace_of := ev :: trace_of r;
     world_of := world_of r |}.

Fixpoint run {R : authority} {A : Type} (p : prog A) (w : world R)
  : run_state R A :=
  match p with
  | Ret a => {| result_of := Returned a; trace_of := []; world_of := w |}
  | Throw e => {| result_of := Raised e; trace_of := []; world_of := w |}
  | Await c k =>
      let (o, w') := respond R w c in
      logged (Called c o) (run (k o) w')
  | Console l args k => logged (Logged l args) (run k w)
  end.

(** An authority without state: each call has one outcome. *)
Definition scripted (session : outcome) (rpc : string -> value -> outcome)
  : authority :=
  {| world := unit;
     respond := fun w c =>
       match c with
       | GetSession => (session, w)
       | Rpc fn args => (rpc fn args, w)
       end |}.

(** The trace of [r] with [tr] in front. *)
Definition after {R : authority} {A : Type} (tr : trace)
  (r : run_state R A) : run_state R A :=
  {| result_of := result_of r;
     trace_of := (tr ++ trace_of r)%list;
     world_of := world_of r |}.

(* ===================================================================== *)
(** * Vocabulary of the properties *)
(* ===================================================================== *)

(** A live session: the accessor's [session] is set and carries the
    [user] whose [id] the sync is asked for. *)
Definition live_session (session : value) : bool :=
  truthy session && negb (nullish (get session "user")).

(** [session.user.id] *)
Definition session_user_id (session : value) : value :=
  get (get session "user") "id".

(** An answer reports an error when its [error] is set. *)
Definition reports_error (resp : value) : bool :=
  truthy (get resp "error").

(** The request itself succeeded: the call resolved to an answer that
    reports no error.  ([null] and [undefined] are no answers: they
    cannot be taken apart into [data] and [error].) *)
Definition request_succeeded (o : outcome) : bool :=
  match o with
  | Resolved resp => negb (nullish resp) && negb (reports_error resp)
  | Rejected _ => false
  end.

(** The snapshot call of [getAdminStatus] and the answer carrying
    snapshot [s]. *)
Definition snapshot_request : remote_call :=
  Rpc "debug_admin_status" VUndefined.

Definition snapshot_answer (s : AdminStatus) : outcome :=
  Resolved (response (status_value s) VNull).

(** The answer of the session accessor for a session without error. *)
Definition session_answer (session : value) : outcome :=
  Resolved (session_response session VNull).

(** The contract of an admin check [p]: it returns a boolean and never
    raises; the boolean is [false] when the call rejects, when the answer
    reports an error and when its data is anything but [true]; and it is
    [true] only on the data [true]. *)
Definition safe_admin_check (R : authority) (p : prog bool) (w : world R)
  : Prop :=
  let o := fst (respond R w (Rpc "is_current_user_admin" VUndefined)) in
  exists b : bool,
    result_of (run p w) = Returned b /\
    (forall e, o = Rejected e -> b = false) /\
    (forall resp, o = Resolved resp -> reports_error resp = true -> b = false) /\
    (forall resp, o = Resolved resp -> get resp "data" <> VBool true ->
                  b = false) /\
    (b = true -> exists resp, o = Resolved resp /\ get resp "data" = VBool true).

(** The call completed without reporting an error or throwing. *)
Definition completes_without_error (o : outcome) : Prop :=
  exists resp,
    o = Resolved resp /\ nullish resp = false /\ reports_error resp = false.

(** Some awaited call of the run rejected. *)
Definition some_call_rejected (tr : trace) : Prop :=
  exists c e, In (Called c (Rejected e)) tr.

(** The reading under which every failing remote operation would end in
    the verdict of the outer [catch]. *)
Definition errors_become_verification_failed : Prop :=
  forall (R : authority) (w : world R),
    exists v : Verdict,
      result_of (run AdminService.verifyAndFixAdminAccess w) = Returned v /\
      (some_call_rejected
         (trace_of (run AdminService.verifyAndFixAdminAccess w)) ->
       v = AdminService.verification_failed).

(** The request of a role mutation. *)
Definition mutation_request (fn : string) (userId : value) : remote_call :=
  Rpc fn (obj [("target_user_id", userId)]).

(** The reading under which a role mutation would answer with a
    [RoleOperationResult] whatever the authority does, and with the
    authority's own error text whenever it reports an error. *)
Definition mutation_always_answers (fn : string) (p : value -> prog value)
  : Prop :=
  forall (R : authority) (userId : value) (w : world R),
    let o := fst (respond R w (mutation_request fn userId)) in
    exists v : value,
      result_of (run (p userId) w) = Returned v /\
      is_RoleOperationResult v = true /\
      (forall resp, o = Resolved resp -> reports_error resp = true ->
         get v "success" = VBool false /\
         get v "message" = get (get resp "error") "message").

(** What a role mutation [p] calling procedure [fn] does: it never
    raises; a reported error gives a failure whose message is the error's
    [message], or [fallback] when that is empty or missing; an answer
    without error gives its [data] as it came; a rejection gives a failure
    with the message of the [Error] thrown, or [fallback]. *)
Definition role_mutation_contract (R : authority) (fn fallback : string)
  (p : value -> prog value) (userId : value) (w : world R) : Prop :=
  let o := fst (respond R w (mutation_request fn userId)) in
  exists v : value,
    result_of (run (p userId) w) = Returned v /\
    (forall resp, o = Resolved resp -> reports_error resp = true ->
       v = AdminService.failure
             (or_else (get (get resp "error") "message") (VStr fallback))) /\
    (forall resp text, o = Resolved resp -> reports_error resp = true ->
       get (get resp "error") "message" = VStr text -> text <> "" ->
       v = result_value {| success := false; message := text;
                           user_id := None; user_email := None |}) /\
    (forall resp, o = Resolved resp -> nullish resp = false ->
       reports_error resp = false -> v = get resp "data") /\
    (forall e, o = Rejected e ->
       v = AdminService.failure
             (if instanceof_Error e then get e "message" else VStr fallback)).

(* ===================================================================== *)
(** * Sample authorities *)
(* ===================================================================== *)

Definition sample_status (profile metadata : option string)
  (signed_in admin : bool) : AdminStatus :=
  {| authenticated := signed_in;
     status_user_id := Some "user-1";
     status_user_email := Some "user-1@example.org";
     profile_exists := true;
     profile_role := profile;
     metadata_role := metadata;
     is_admin_result := admin;
     timestamp := "2025-01-01T00:00:00Z";
     status_message := None;
     raw_metadata := None |}.

(** User [user-1] is signed in, the snapshot is [s], and every other
    procedure has outcome [other]. *)
Definition sample_authority (s : AdminStatus) (other : outcome) : authority :=
  scripted (session_answer (session_value "user-1"))
    (fun fn _ =>
       if String.eqb fn "debug_admin_status" then snapshot_answer s
       else other).

(** Nobody is signed in. *)
Definition signed_out_authority : authority :=
  scripted (Resolved (session_response VNull VNull))
    (fun _ _ => Resolved (response VNull VNull)).

(** User [user-1] is signed in and every procedure is unreachable. *)
Definition unreachable_authority : authority :=
  scripted (session_answer (session_value "user-1"))
    (fun _ _ => Rejected (new_Error "Failed to fetch")).

(** Every procedure answers with neither data nor error. *)
Definition silent_authority : authority :=
  scripted (session_answer (session_value "user-1"))
    (fun _ _ => Resolved (response VNull VNull)).

(** Every procedure reports an error whose text is empty. *)
Definition wordless_authority : authority :=
  scripted (session_answer (session_value "user-1"))
    (fun _ _ => Resolved (response VNull (obj [("message", VStr "")]))).

(** Every procedure reports the error [text]. *)
Definition refusing_authority (text : string) : authority :=
  scripted (session_answer (session_value "user-1"))
    (fun _ _ => Resolved (response VNull (obj [("message", VStr text)]))).

(* ===================================================================== *)
(** * Vocabulary of the further properties *)
(* ===================================================================== *)

(** The verdicts of [verifyAndFixAdminAccess], all of them fixed texts. *)
Definition verdicts : list Verdict :=
  [AdminService.no_session;
   AdminService.status_unavailable;
   AdminService.not_authenticated;
   AdminService.verified;
   AdminService.synced_verdict;
   AdminService.privileges_not_found;
   AdminService.verification_failed].

(** What [getAdminStatus] makes of the outcome of its call. *)
Definition snapshot_of (o : outcome) : value :=
  match o with
  | Resolved resp =>
      if nullish resp || reports_error resp then VNull else get resp "data"
  | Rejected _ => VNull
  end.

(** The session an answer of the session accessor carries. *)
Definition session_of (resp : value) : value :=
  get (get resp "data") "session".

(** The rows a filter keeps when no callback throws. *)
Definition admin_rows (rows : list value) : list value :=
  List.filter (fun u => strict_equals (get u "role") (VStr "admin")) rows.

Definition client_rows (rows : list value) : list value :=
  List.filter (fun u => strict_equals (get u "role") (VStr "client")) rows.

Definition active_rows (rows : list value) : list value :=
  List.filter (fun u => truthy (get u "is_active")) rows.

(** Every row is an object or a primitive with properties to read. *)
Definition readable_rows (rows : list value) : bool :=
  List.forallb (fun u => negb (nullish u)) rows.

(** What [throw new Error(message)] raises: the error constructed, or
    the error of converting [message]. *)
Definition thrown_Error {A : Type} (ToString : value -> string + value)
  (message : value) : result A :=
  match message with
  | VStr text => Raised (new_Error text)
  | VUndefined => Raised (new_Error "")
  | _ =>
      match ToString message with
      | inl text => Raised (new_Error text)
      | inr e => Raised e
      end
  end.

(** What a listing with fallback text [fallback] makes of the outcome of
    its call. *)
Definition listing_result (ToString : value -> string + value)
  (fallback : string) (o : outcome) : result value :=
  match o with
  | Rejected e => Raised e
  | Resolved resp =>
      if nullish resp then Raised (TypeError "data")
      else if reports_error resp then
        thrown_Error ToString
          (or_else (get (get resp "error") "message") (VStr fallback))
      else Returned (get resp "data")
  end.

(** A stand-in for the engine's conversion in the samples, whose
    messages are strings: it is never consulted there. *)
Definition sample_ToString (v : value) : string + value :=
  inl "[object Object]".

(** The session accessor is unreachable. *)
Definition offline_authority : authority :=
  scripted (Rejected (new_Error "Failed to fetch"))
    (fun _ _ => Rejected (new_Error "Failed to fetch")).

(** Somebody is signed in with a session that names no user; the snapshot
    is [s] and every other procedure answers with neither data nor
    error. *)
Definition userless_authority (s : AdminStatus) : authority :=
  scripted (session_answer (obj [("access_token", VStr "token")]))
    (fun fn _ =>
       if String.eqb fn "debug_admin_status" then snapshot_answer s
       else Resolved (response VNull VNull)).

(** User [user-1] is signed in, the snapshot is the object [status] as
    it is, and every other procedure is unreachable. *)
Definition untyped_authority (status : value) : authority :=
  scripted (session_answer (session_value "user-1"))
    (fun fn _ =>
       if String.eqb fn "debug_admin_status"
       then Resolved (response status VNull)
       else Rejected (new_Error "Failed to fetch")).

(** Every procedure answers with the result [r]. *)
Definition answering_authority (r : RoleOperationResult) : authority :=
  scripted (session_answer (session_value "user-1"))
    (fun _ _ => Resolved (response (result_value r) VNull)).

(** Three profiles: an active admin, an active client and a client who is
    not active. *)
Definition sample_rows : list value :=
  [profile_row "admin" true; profile_row "client" true;
   profile_row "client" false].

(* ===================================================================== *)
(** * JavaScript facts *)
(* ===================================================================== *)

Lemma strict_equals_true (v : value) :
  strict_equals v (VBool true) = true <-> v = VBool true.
Proof.
  split.
  - destruct v as [| | [|] | | | |]; cbn; intros H;
      solve [reflexivity | discriminate H].
  - intros ->. reflexivity.
Qed.

Lemma strict_equals_admin (role : option string) :
  strict_equals (nullable role) (VStr "admin") = true <-> role = Some "admin".
Proof.
  destruct role as [r |]; cbn.
  - rewrite String.eqb_eq. split; congruence.
  - split; discriminate.
Qed.

Lemma strict_equals_not_admin (role : option string) :
  role <> Some "admin" ->
  strict_equals (nullable role) (VStr "admin") = false.
Proof.
  intros H. destruct (strict_equals _ _) eqn:E; [| reflexivity].
  apply strict_equals_admin in E. contradiction.
Qed.

Lemma truthy_not_nullish (v : value) : truthy v = true -> nullish v = false.
Proof. destruct v; cbn; congruence. Qed.

Lemma instanceof_Error_not_nullish (v : value) :
  instanceof_Error v = true -> nullish v = false.
Proof. destruct v; cbn; congruence. Qed.

(* ===================================================================== *)
(** * Running [bind] and [try]/[catch] *)
(* ===================================================================== *)

Lemma run_bind {R : authority} {A B : Type} (p : prog A) (f : A -> prog B)
  (w : world R) :
  run (prog_bind p f) w =
  match result_of (run p w) with
  | Returned a => after (trace_of (run p w)) (run (f a) (world_of (run p w)))
  | Raised e =>
      {| result_of := Raised e;
         trace_of := trace_of (run p w);
         world_of := world_of (run p w) |}
  end.
Proof.
  revert w; induction p as [a | e | c k IH | l args k IH]; intros w; cbn.
  - destruct (run (f a) w); reflexivity.
  - reflexivity.
  - destruct (respond R w c) as [o w']. rewrite IH. cbn.
    destruct (result_of (run (k o) w')); reflexivity.
  - rewrite IH. destruct (result_of (run k w)); reflexivity.
Qed.

Lemma run_try_catch {R : authority} {A : Type} (p : prog A)
  (h : value -> prog A) (w : world R) :
  run (try_catch p h) w =
  match result_of (run p w) with
  | Returned a => run p w
  | Raised e => after (trace_of (run p w)) (run (h e) (world_of (run p w)))
  end.
Proof.
  revert w; induction p as [a | e | c k IH | l args k IH]; intros w; cbn.
  - reflexivity.
  - destruct (run (h e) w); reflexivity.
  - destruct (respond R w c) as [o w']. rewrite IH. cbn.
    destruct (result_of (run (k o) w')); reflexivity.
  - rewrite IH. destruct (result_of (run k w)); reflexivity.
Qed.

Lemma member_defined (v : value) (p : string) :
  nullish v = false -> member v p = Ret (get v p).
Proof. intros H. unfold member. rewrite H. reflexivity. Qed.

Lemma member_raises (v : value) (p : string) :
  nullish v = true <-> member v p = Throw (TypeError p).
Proof.
  unfold member. destruct (nullish v); cbn; split; congruence.
Qed.

(* ===================================================================== *)
(** * The boolean services *)
(* ===================================================================== *)

Section Properties.

Variable R : authority.

Lemma run_syncAdminRole (userId : value) (w : world R) :
  run (AdminService.syncAdminRole userId) w =
  let (o, w') := respond R w (AdminService.sync_request userId) in
  {| result_of := Returned (request_succeeded o);
     trace_of := trace_of (run (AdminService.syncAdminRole userId) w);
     world_of := w' |}.
Proof.
  unfold AdminService.syncAdminRole. cbn.
  destruct (respond R w (AdminService.sync_request userId))
    as [[resp | e] w']; cbn; [| reflexivity].
  unfold member, reports_error. destruct (nullish resp); cbn; [reflexivity |].
  destruct (truthy (get resp "error")); reflexivity.
Qed.

Lemma result_syncAdminRole (userId : value) (w : world R) :
  result_of (run (AdminService.syncAdminRole userId) w) =
  Returned
    (request_succeeded (fst (respond R w (AdminService.sync_request userId)))).
Proof.
  rewrite run_syncAdminRole.
  destruct (respond R w (AdminService.sync_request userId)); reflexivity.
Qed.

(** C9.  [syncAdminRole] never raises; it returns [true] exactly when the
    call completed without reporting an error or throwing; and on an
    answer [{ data, error }] the boolean is decided by [error] alone,
    whatever [data] is. *)
Theorem syncAdminRole_reports_request (userId : value) (w : world R) :
  let o := fst (respond R w (AdminService.sync_request userId)) in
  exists b : bool,
    result_of (run (AdminService.syncAdminRole userId) w) = Returned b /\
    (b = true <-> completes_without_error o) /\
    (forall data error,
       o = Resolved (response data error) -> b = negb (truthy error)).
Proof.
  intros o. exists (request_succeeded o).
  split; [apply result_syncAdminRole |]. split.
  - unfold completes_without_error. split.
    + destruct o as [resp | e]; cbn; [| discriminate].
      intros H. apply andb_true_iff in H as [H1 H2].
      rewrite negb_true_iff in H1, H2. exists resp. auto.
    + intros (resp & -> & H1 & H2). cbn. rewrite H1, H2. reflexivity.
  - intros data error ->. reflexivity.
Qed.

Ltac settle_false :=
  exists false; repeat split; auto; discriminate.

Lemma isCurrentUserAdmin_safe (w : world R) :
  safe_admin_check R AdminService.isCurrentUserAdmin w.
Proof.
  unfold safe_admin_check, AdminService.isCurrentUserAdmin. cbn.
  destruct (respond R w (Rpc "is_current_user_admin" VUndefined))
    as [[resp | e] w']; cbn; [| settle_false].
  unfold member, reports_error.
  destruct (nullish resp) eqn:N; cbn; [settle_false |].
  destruct (truthy (get resp "error")) eqn:E; cbn; [settle_false |].
  exists (strict_equals (get resp "data") (VBool true)).
  split; [reflexivity |]. split; [discriminate |]. split; [| split].
  - intros r [= <-]. congruence.
  - intros r [= <-] H. destruct (strict_equals _ _) eqn:S; [| reflexivity].
    apply strict_equals_true in S. contradiction.
  - intros S. apply strict_equals_true in S. exists resp. auto.
Qed.

Lemma isCurrentUserAdmin_base_safe (w : world R) :
  safe_admin_check R AdminServiceBase.isCurrentUserAdmin w.
Proof.
  unfold safe_admin_check, AdminServiceBase.isCurrentUserAdmin. cbn.
  destruct (respond R w (Rpc "is_current_user_admin" VUndefined))
    as [[resp | e] w']; cbn; [| settle_false].
  unfold member, reports_error.
  destruct (nullish resp) eqn:N; cbn; [settle_false |].
  destruct (truthy (get resp "error")) eqn:E; cbn; [settle_false |].
  exists (strict_equals (get resp "data") (VBool true)).
  split; [reflexivity |]. split; [discriminate |]. split; [| split].
  - intros r [= <-]. congruence.
  - intros r [= <-] H. destruct (strict_equals _ _) eqn:S; [| reflexivity].
    apply strict_equals_true in S. contradiction.
  - intros S. apply strict_equals_true in S. exists resp. auto.
Qed.

(** C6.  [isCurrentUserAdmin], in both versions of the service, never
    raises: it returns a boolean, which is [false] when the remote call
    rejects, when it reports an error and when its data is anything but
    the boolean [true], so that [true] is returned only on the data
    [true]. *)
Theorem isCurrentUserAdmin_never_raises (w : world R) :
  safe_admin_check R AdminService.isCurrentUserAdmin w /\
  safe_admin_check R AdminServiceBase.isCurrentUserAdmin w.
Proof.
  split; [apply isCurrentUserAdmin_safe | apply isCurrentUserAdmin_base_safe].
Qed.

(* ===================================================================== *)
(** * The reconciliation *)
(* ===================================================================== *)

Import AdminService.

Lemma run_no_session (w w' : world R) (session error : value) :
  respond R w GetSession = (Resolved (session_response session error), w') ->
  truthy error = true \/ truthy session = false ->
  result_of (run verifyAndFixAdminAccess w) = Returned no_session /\
  calls (trace_of (run verifyAndFixAdminAccess w)) = [GetSession].
Proof.
  intros Hs Hc. unfold verifyAndFixAdminAccess, verifyAndFixAdminAccess_body.
  cbn. rewrite Hs. cbn.
  assert (E : truthy error || negb (truthy session) = true).
  { destruct Hc as [-> | ->]; [reflexivity | apply orb_true_r]. }
  rewrite E. split; reflexivity.
Qed.

(** The steps every run with a session and a snapshot starts with. *)
Ltac fetch_snapshot Hl Hs Hq :=
  unfold verifyAndFixAdminAccess, verifyAndFixAdminAccess_body, getAdminStatus;
  cbn; rewrite Hs; cbn; rewrite Hl; cbn;
  fold snapshot_request; rewrite Hq; cbn.

Lemma run_not_authenticated (w0 w1 w2 : world R) (session : value)
  (s : AdminStatus) :
  truthy session = true ->
  respond R w0 GetSession = (session_answer session, w1) ->
  respond R w1 snapshot_request = (snapshot_answer s, w2) ->
  authenticated s = false ->
  result_of (run verifyAndFixAdminAccess w0) = Returned not_authenticated /\
  calls (trace_of (run verifyAndFixAdminAccess w0))
  = [GetSession; snapshot_request].
Proof.
  intros Hl Hs Hq Ha. fetch_snapshot Hl Hs Hq.
  rewrite Ha. cbn. split; reflexivity.
Qed.

Lemma run_already_admin (w0 w1 w2 : world R) (session : value)
  (s : AdminStatus) :
  truthy session = true ->
  respond R w0 GetSession = (session_answer session, w1) ->
  respond R w1 snapshot_request = (snapshot_answer s, w2) ->
  authenticated s = true ->
  is_admin_result s = true ->
  result_of (run verifyAndFixAdminAccess w0) = Returned verified /\
  calls (trace_of (run verifyAndFixAdminAccess w0))
  = [GetSession; snapshot_request].
Proof.
  intros Hl Hs Hq Ha Hi. fetch_snapshot Hl Hs Hq.
  rewrite Ha. cbn. rewrite Hi. cbn. split; reflexivity.
Qed.

Lemma run_no_mismatch (w0 w1 w2 : world R) (session : value)
  (s : AdminStatus) :
  truthy session = true ->
  respond R w0 GetSession = (session_answer session, w1) ->
  respond R w1 snapshot_request = (snapshot_answer s, w2) ->
  authenticated s = true ->
  is_admin_result s = false ->
  metadata_role s <> Some "admin" ->
  result_of (run verifyAndFixAdminAccess w0) = Returned privileges_not_found /\
  calls (trace_of (run verifyAndFixAdminAccess w0))
  = [GetSession; snapshot_request].
Proof.
  intros Hl Hs Hq Ha Hi Hm. fetch_snapshot Hl Hs Hq.
  rewrite Ha. cbn. rewrite Hi. cbn.
  rewrite (strict_equals_not_admin _ Hm). cbn. split; reflexivity.
Qed.

Lemma run_mismatch (w0 w1 w2 w3 : world R) (session : value)
  (s : AdminStatus) (o : outcome) :
  live_session session = true ->
  respond R w0 GetSession = (session_answer session, w1) ->
  respond R w1 snapshot_request = (snapshot_answer s, w2) ->
  respond R w2 (sync_request (session_user_id session)) = (o, w3) ->
  authenticated s = true ->
  is_admin_result s = false ->
  metadata_role s = Some "admin" ->
  profile_role s <> Some "admin" ->
  result_of (run verifyAndFixAdminAccess w0)
  = Returned (if request_succeeded o then synced_verdict
              else privileges_not_found) /\
  calls (trace_of (run verifyAndFixAdminAccess w0))
  = [GetSession; snapshot_request; sync_request (session_user_id session)].
Proof.
  intros Hl Hs Hq Hy Ha Hi Hm Hp.
  apply andb_true_iff in Hl as [Hl Hu]. apply negb_true_iff in Hu.
  fetch_snapshot Hl Hs Hq.
  rewrite Ha. cbn. rewrite Hi. cbn. rewrite Hm. cbn.
  rewrite (strict_equals_not_admin _ Hp). cbn.
  rewrite (member_defined session) by auto using truthy_not_nullish. cbn.
  rewrite (member_defined (get session "user")) by assumption. cbn.
  fold (session_user_id session). rewrite Hy. destruct o as [resp | e]; cbn; [| split; reflexivity].
  unfold member, reports_error. destruct (nullish resp); cbn; [split; reflexivity |].
  destruct (truthy (get resp "error")); cbn; split; reflexivity.
Qed.

(** C1.  With a live session and an authenticated snapshot whose
    [metadata_role] is ["admin"], whose [profile_role] is not and whose
    [is_admin_result] is [false], exactly one sync request is made, for the
    user of the session; when that request succeeds the verdict is a
    success, and when it fails the verdict is the failure "Admin privileges
    not found. Contact support if you should have admin access.". *)
Theorem mismatch_makes_one_sync_request (w0 w1 w2 w3 : world R)
  (session : value) (s : AdminStatus) (o : outcome) :
  live_session session = true ->
  respond R w0 GetSession = (session_answer session, w1) ->
  respond R w1 snapshot_request = (snapshot_answer s, w2) ->
  respond R w2 (sync_request (session_user_id session)) = (o, w3) ->
  authenticated s = true ->
  is_admin_result s = false ->
  metadata_role s = Some "admin" ->
  profile_role s <> Some "admin" ->
  let r := run verifyAndFixAdminAccess w0 in
  sync_requests (trace_of r) = 1 /\
  calls (trace_of r)
  = [GetSession; snapshot_request; sync_request (session_user_id session)] /\
  (request_succeeded o = true ->
   exists text,
     result_of r
     = Returned {| verdict_success := true; verdict_message := text |}) /\
  (request_succeeded o = false ->
   result_of r
   = Returned
       {| verdict_success := false;
          verdict_message :=
            "Admin privileges not found. Contact support if you should have admin access." |}).
Proof.
  intros Hl Hs Hq Hy Ha Hi Hm Hp r.
  destruct (run_mismatch _ _ _ _ _ _ _ Hl Hs Hq Hy Ha Hi Hm Hp) as [Hr Hc].
  subst r. unfold sync_requests, count_rpc. rewrite Hc, Hr.
  split; [reflexivity |]. split; [reflexivity |].
  split; intros ->; [eexists |]; reflexivity.
Qed.

(** C2.  With a live session and an authenticated snapshot whose
    [is_admin_result] is [true], the verdict is the success "Admin access
    verified successfully.", whatever [profile_role] and [metadata_role]
    are. *)
Theorem admin_result_is_trusted (w0 w1 w2 : world R) (session : value)
  (s : AdminStatus) :
  live_session session = true ->
  respond R w0 GetSession = (session_answer session, w1) ->
  respond R w1 snapshot_request = (snapshot_answer s, w2) ->
  authenticated s = true ->
  is_admin_result s = true ->
  result_of (run verifyAndFixAdminAccess w0)
  = Returned
      {| verdict_success := true;
         verdict_message := "Admin access verified successfully." |}.
Proof.
  intros Hl Hs Hq Ha Hi. apply andb_true_iff in Hl as [Hl _].
  apply (run_already_admin _ _ _ _ _ Hl Hs Hq Ha Hi).
Qed.

(** C3.  With a live session and a snapshot whose [authenticated] is
    [false], the verdict is the failure "User is not authenticated.",
    whatever [profile_role], [metadata_role] and [is_admin_result] are. *)
Theorem unauthenticated_snapshot_is_refused (w0 w1 w2 : world R)
  (session : value) (s : AdminStatus) :
  live_session session = true ->
  respond R w0 GetSession = (session_answer session, w1) ->
  respond R w1 snapshot_request = (snapshot_answer s, w2) ->
  authenticated s = false ->
  result_of (run verifyAndFixAdminAccess w0)
  = Returned
      {| verdict_success := false;
         verdict_message := "User is not authenticated." |}.
Proof.
  intros Hl Hs Hq Ha. apply andb_true_iff in Hl as [Hl _].
  apply (run_not_authenticated _ _ _ _ _ Hl Hs Hq Ha).
Qed.

(** C4.  When the session accessor answers without a session, or with a
    session error, the verdict is the failure "No active session. Please
    log in." and the accessor is the only call made: neither the snapshot
    is fetched nor a sync requested. *)
Theorem missing_session_short_circuits (w w' : world R)
  (session error : value) :
  respond R w GetSession = (Resolved (session_response session error), w') ->
  truthy error = true \/ truthy session = false ->
  let r := run verifyAndFixAdminAccess w in
  result_of r
  = Returned
      {| verdict_success := false;
         verdict_message := "No active session. Please log in." |} /\
  calls (trace_of r) = [GetSession] /\
  snapshot_fetches (trace_of r) = 0 /\
  sync_requests (trace_of r) = 0.
Proof.
  intros Hs Hc r. destruct (run_no_session _ _ _ _ Hs Hc) as [Hr Hk].
  subst r. unfold snapshot_fetches, sync_requests, count_rpc.
  rewrite Hk, Hr. repeat split.
Qed.

(** C5.  With a live session and an authenticated snapshot whose
    [metadata_role] is not ["admin"] and whose [is_admin_result] is
    [false], no sync request is made and the verdict is the failure "Admin
    privileges not found. Contact support if you should have admin
    access.". *)
Theorem no_sync_without_admin_metadata (w0 w1 w2 : world R)
  (session : value) (s : AdminStatus) :
  live_session session = true ->
  respond R w0 GetSession = (session_answer session, w1) ->
  respond R w1 snapshot_request = (snapshot_answer s, w2) ->
  authenticated s = true ->
  is_admin_result s = false ->
  metadata_role s <> Some "admin" ->
  let r := run verifyAndFixAdminAccess w0 in
  sync_requests (trace_of r) = 0 /\
  result_of r
  = Returned
      {| verdict_success := false;
         verdict_message :=
           "Admin privileges not found. Contact support if you should have admin access." |}.
Proof.
  intros Hl Hs Hq Ha Hi Hm r. apply andb_true_iff in Hl as [Hl _].
  destruct (run_no_mismatch _ _ _ _ _ Hl Hs Hq Ha Hi Hm) as [Hr Hk].
  subst r. unfold sync_requests, count_rpc. rewrite Hk, Hr.
  split; reflexivity.
Qed.

(** C10.  When the snapshot has [is_admin_result = true], the session
    accessor and the snapshot fetch are the only calls of the run: no sync
    is requested, also when [metadata_role] is ["admin"] and
    [profile_role] is not. *)
Theorem verified_admin_is_left_unrepaired (w0 w1 w2 : world R)
  (session : value) (s : AdminStatus) :
  live_session session = true ->
  respond R w0 GetSession = (session_answer session, w1) ->
  respond R w1 snapshot_request = (snapshot_answer s, w2) ->
  is_admin_result s = true ->
  let r := run verifyAndFixAdminAccess w0 in
  sync_requests (trace_of r) = 0 /\
  calls (trace_of r) = [GetSession; snapshot_request].
Proof.
  intros Hl Hs Hq Hi r. apply andb_true_iff in Hl as [Hl _].
  assert (Hk : calls (trace_of r) = [GetSession; snapshot_request]).
  { subst r. destruct (authenticated s) eqn:Ha.
    - apply (run_already_admin _ _ _ _ _ Hl Hs Hq Ha Hi).
    - apply (run_not_authenticated _ _ _ _ _ Hl Hs Hq Ha). }
  unfold sync_requests, count_rpc. rewrite Hk. split; reflexivity.
Qed.

(* ===================================================================== *)
(** * Errors *)
(* ===================================================================== *)

(** The verdict is the one of the [try] block when it returns, and the
    one of the [catch] otherwise. *)
Lemma result_verifyAndFixAdminAccess (w : world R) :
  result_of (run verifyAndFixAdminAccess w)
  = Returned
      match result_of (run verifyAndFixAdminAccess_body w) with
      | Returned v => v
      | Raised _ => verification_failed
      end.
Proof.
  unfold verifyAndFixAdminAccess.
  change (@catch value prog MonadExc_prog Verdict) with (@try_catch Verdict).
  rewrite run_try_catch.
  destruct (result_of (run verifyAndFixAdminAccess_body w)) as [v | e] eqn:E;
    [exact E | reflexivity].
Qed.

Lemma body_session_rejected (w w' : world R) (e : value) :
  respond R w GetSession = (Rejected e, w') ->
  result_of (run verifyAndFixAdminAccess_body w) = Raised e.
Proof.
  intros Hs. unfold verifyAndFixAdminAccess_body. cbn. rewrite Hs. reflexivity.
Qed.

Lemma body_session_malformed (w w' : world R) (resp : value) :
  respond R w GetSession = (Resolved resp, w') ->
  nullish resp || nullish (get resp "data") = true ->
  exists p, result_of (run verifyAndFixAdminAccess_body w)
            = Raised (TypeError p).
Proof.
  intros Hs Hn. unfold verifyAndFixAdminAccess_body. cbn. rewrite Hs. cbn.
  destruct (nullish resp) eqn:N; cbn in Hn.
  - rewrite (proj1 (member_raises resp "data") N). cbn.
    eexists. reflexivity.
  - rewrite !(member_defined resp) by exact N. cbn.
    rewrite (proj1 (member_raises (get resp "data") "session") Hn). cbn.
    eexists. reflexivity.
Qed.

Lemma run_snapshot_rejected (w0 w1 w2 : world R) (session e : value) :
  truthy session = true ->
  respond R w0 GetSession = (session_answer session, w1) ->
  respond R w1 snapshot_request = (Rejected e, w2) ->
  result_of (run verifyAndFixAdminAccess w0) = Returned status_unavailable.
Proof.
  intros Hl Hs Hq.
  unfold verifyAndFixAdminAccess, verifyAndFixAdminAccess_body, getAdminStatus.
  cbn. rewrite Hs. cbn. rewrite Hl. cbn.
  fold snapshot_request. rewrite Hq. reflexivity.
Qed.

(** A session without [user] is accepted until the sync needs its
    [id]: reading it fails, and the failure is the verdict of the
    [catch]. *)
Lemma run_session_without_user (w0 w1 w2 : world R) (session : value)
  (s : AdminStatus) :
  truthy session = true ->
  nullish (get session "user") = true ->
  respond R w0 GetSession = (session_answer session, w1) ->
  respond R w1 snapshot_request = (snapshot_answer s, w2) ->
  authenticated s = true ->
  is_admin_result s = false ->
  metadata_role s = Some "admin" ->
  profile_role s <> Some "admin" ->
  result_of (run verifyAndFixAdminAccess w0) = Returned verification_failed /\
  calls (trace_of (run verifyAndFixAdminAccess w0))
  = [GetSession; snapshot_request].
Proof.
  intros Hl Hu Hs Hq Ha Hi Hm Hp. fetch_snapshot Hl Hs Hq.
  rewrite Ha. cbn. rewrite Hi. cbn. rewrite Hm. cbn.
  rewrite (strict_equals_not_admin _ Hp). cbn.
  rewrite (member_defined session) by auto using truthy_not_nullish. cbn.
  rewrite (proj1 (member_raises (get session "user") "id") Hu). cbn.
  split; reflexivity.
Qed.

(** C7, as the service has it.  [verifyAndFixAdminAccess] never raises:
    it always returns a verdict.  An error that leaves its [try] block,
    such as a rejection of the session accessor or an answer of it that
    cannot be taken apart, gives the failure "Failed to verify admin
    access.".  A rejection of the snapshot fetch is caught in
    [getAdminStatus] and gives "Failed to check admin status."; a
    rejection of the sync request is caught in [syncAdminRole] and gives
    "Admin privileges not found. Contact support if you should have admin
    access.". *)
Theorem verification_never_raises (w : world R) :
  exists v : Verdict,
    result_of (run verifyAndFixAdminAccess w) = Returned v /\
    (forall e,
       result_of (run verifyAndFixAdminAccess_body w) = Raised e ->
       v = {| verdict_success := false;
              verdict_message := "Failed to verify admin access." |}) /\
    (forall e w',
       respond R w GetSession = (Rejected e, w') ->
       v = {| verdict_success := false;
              verdict_message := "Failed to verify admin access." |}) /\
    (forall resp w',
       respond R w GetSession = (Resolved resp, w') ->
       nullish resp || nullish (get resp "data") = true ->
       v = {| verdict_success := false;
              verdict_message := "Failed to verify admin access." |}) /\
    (forall session e w1 w2,
       truthy session = true ->
       respond R w GetSession = (session_answer session, w1) ->
       respond R w1 snapshot_request = (Rejected e, w2) ->
       v = {| verdict_success := false;
              verdict_message := "Failed to check admin status." |}) /\
    (forall session s e w1 w2 w3,
       live_session session = true ->
       respond R w GetSession = (session_answer session, w1) ->
       respond R w1 snapshot_request = (snapshot_answer s, w2) ->
       respond R w2 (sync_request (session_user_id session))
       = (Rejected e, w3) ->
       authenticated s = true ->
       is_admin_result s = false ->
       metadata_role s = Some "admin" ->
       profile_role s <> Some "admin" ->
       v = {| verdict_success := false;
              verdict_message :=
                "Admin privileges not found. Contact support if you should have admin access." |}).
Proof.
  pose proof (result_verifyAndFixAdminAccess w) as Hv.
  exists match result_of (run verifyAndFixAdminAccess_body w) with
         | Returned v => v
         | Raised _ => verification_failed
         end.
  split; [exact Hv |].
  split; [| split; [| split; [| split]]].
  - intros e He. rewrite He. reflexivity.
  - intros e w' Hs. rewrite (body_session_rejected _ _ _ Hs). reflexivity.
  - intros resp w' Hs Hn.
    destruct (body_session_malformed _ _ _ Hs Hn) as [p Hp].
    rewrite Hp. reflexivity.
  - intros session e w1 w2 Hl Hs Hq.
    pose proof (run_snapshot_rejected _ _ _ _ _ Hl Hs Hq) as H.
    rewrite Hv in H. injection H as H. exact H.
  - intros session s e w1 w2 w3 Hl Hs Hq Hy Ha Hi Hm Hp.
    destruct (run_mismatch _ _ _ _ _ _ _ Hl Hs Hq Hy Ha Hi Hm Hp) as [H _].
    rewrite Hv in H. injection H as H. exact H.
Qed.

Lemma or_else_text (text fallback : string) :
  text <> "" -> or_else (VStr text) (VStr fallback) = VStr text.
Proof.
  intros H. unfold or_else. cbn.
  destruct (String.eqb_spec text ""); [contradiction | reflexivity].
Qed.

Lemma nullish_reports_nothing (resp : value) :
  reports_error resp = true -> nullish resp = false.
Proof. destruct resp; cbn; congruence. Qed.

(** Both mutations have one proof: take the outcome of the call apart,
    then the answer. *)
Ltac mutation_cases w :=
  let resp := fresh "resp" in
  let e := fresh "e" in
  let N := fresh "N" in
  let E := fresh "E" in
  let I := fresh "I" in
  unfold role_mutation_contract, mutation_request; cbn;
  match goal with
  | |- context [respond R w ?c] =>
      destruct (respond R w c) as [[resp | e] ?]; cbn
  end;
  [ destruct (nullish resp) eqn:N;
    [ rewrite (proj1 (member_raises resp "data") N)
    | rewrite !(member_defined resp) by exact N; cbn;
      destruct (truthy (get resp "error")) eqn:E; cbn;
      [ rewrite (member_defined (get resp "error"))
          by exact (truthy_not_nullish _ E) | ] ]
  | destruct (instanceof_Error e) eqn:I; cbn;
    [ rewrite (member_defined e) by exact (instanceof_Error_not_nullish _ I)
    | ] ];
  cbn; eexists; (split; [reflexivity |]); repeat split; intros;
  try discriminate;
  repeat match goal with
         | H : Resolved _ = Resolved _ |- _ => injection H as <-
         | H : Rejected _ = Rejected _ |- _ => injection H as <-
         | H : reports_error _ = true |- _ =>
             pose proof (nullish_reports_nothing _ H);
             unfold reports_error in H
         | H : reports_error _ = false |- _ => unfold reports_error in H
         end;
  try congruence;
  try reflexivity;
  try match goal with
      | I : instanceof_Error _ = _ |- _ => rewrite I; reflexivity
      | T : get _ "message" = VStr ?text, NE : ?text <> "" |- _ =>
          rewrite T, (or_else_text _ _ NE); reflexivity
      end.

Lemma grantAdminRole_contract (userId : value) (w : world R) :
  role_mutation_contract R "grant_admin_role" "Failed to grant admin role"
    grantAdminRole userId w.
Proof.
  unfold grantAdminRole. mutation_cases w.
Qed.

Lemma revokeAdminRole_contract (userId : value) (w : world R) :
  role_mutation_contract R "revoke_admin_role" "Failed to revoke admin role"
    revokeAdminRole userId w.
Proof.
  unfold revokeAdminRole. mutation_cases w.
Qed.

(** C8, as the service has it.  [grantAdminRole] and [revokeAdminRole]
    never raise.  When the authority reports an error the result is
    [{ success: false, message }] with the error's own text for message,
    or "Failed to grant admin role" (for revoke "Failed to revoke admin
    role") when that text is empty or missing; when the call rejects the
    result is such a failure too; and an answer without error is returned
    as its [data] came, which is a [RoleOperationResult] when the
    authority sent one. *)
Theorem role_mutations_never_raise (userId : value) (w : world R) :
  role_mutation_contract R "grant_admin_role" "Failed to grant admin role"
    grantAdminRole userId w /\
  role_mutation_contract R "revoke_admin_role" "Failed to revoke admin role"
    revokeAdminRole userId w.
Proof.
  split; [apply grantAdminRole_contract | apply revokeAdminRole_contract].
Qed.

End Properties.

(* ===================================================================== *)
(** * The properties on the sample authorities *)
(* ===================================================================== *)

Import AdminService.

Lemma mismatch_makes_one_sync_request_witness :
  let s := sample_status (Some "client") (Some "admin") true false in
  let r := run (R := sample_authority s (Resolved (response VNull VNull)))
             verifyAndFixAdminAccess tt in
  (metadata_role s = Some "admin" /\ profile_role s <> Some "admin") /\
  sync_requests (trace_of r) = 1 /\
  result_of r = Returned synced_verdict.
Proof.
  intros s r. split; [split; [reflexivity | discriminate] |].
  destruct (mismatch_makes_one_sync_request
              (sample_authority s (Resolved (response VNull VNull)))
              tt tt tt tt (session_value "user-1") s
              (Resolved (response VNull VNull)))
    as (Hn & _ & Hok & _);
    try reflexivity; try discriminate.
  split; [exact Hn |]. reflexivity.
Defined.

Lemma admin_result_is_trusted_witness :
  let s := sample_status (Some "client") (Some "admin") true true in
  is_admin_result s = true /\
  result_of (run (R := sample_authority s (Rejected VNull))
               verifyAndFixAdminAccess tt)
  = Returned verified.
Proof.
  intros s. split; [reflexivity |].
  apply (admin_result_is_trusted (sample_authority s (Rejected VNull))
           tt tt tt (session_value "user-1") s); reflexivity.
Defined.

Lemma unauthenticated_snapshot_is_refused_witness :
  let s := sample_status (Some "admin") (Some "admin") false true in
  authenticated s = false /\
  result_of (run (R := sample_authority s (Rejected VNull))
               verifyAndFixAdminAccess tt)
  = Returned not_authenticated.
Proof.
  intros s. split; [reflexivity |].
  apply (unauthenticated_snapshot_is_refused
           (sample_authority s (Rejected VNull))
           tt tt tt (session_value "user-1") s); reflexivity.
Defined.

Lemma missing_session_short_circuits_witness :
  let r := run (R := signed_out_authority) verifyAndFixAdminAccess tt in
  truthy VNull = false /\
  result_of r = Returned no_session /\
  calls (trace_of r) = [GetSession] /\
  snapshot_fetches (trace_of r) = 0 /\
  sync_requests (trace_of r) = 0.
Proof.
  intros r. split; [reflexivity |].
  apply (missing_session_short_circuits signed_out_authority tt tt
           VNull VNull); [reflexivity | right; reflexivity].
Defined.

Lemma no_sync_without_admin_metadata_witness :
  let s := sample_status (Some "client") (Some "client") true false in
  let r := run (R := sample_authority s (Resolved (response VNull VNull)))
             verifyAndFixAdminAccess tt in
  metadata_role s <> Some "admin" /\
  sync_requests (trace_of r) = 0 /\
  result_of r = Returned privileges_not_found.
Proof.
  intros s r. split; [discriminate |].
  apply (no_sync_without_admin_metadata
           (sample_authority s (Resolved (response VNull VNull)))
           tt tt tt (session_value "user-1") s);
    try reflexivity; discriminate.
Defined.

Lemma verified_admin_is_left_unrepaired_witness :
  let s := sample_status (Some "client") (Some "admin") true true in
  let r := run (R := sample_authority s (Resolved (response VNull VNull)))
             verifyAndFixAdminAccess tt in
  (metadata_role s = Some "admin" /\ profile_role s <> Some "admin") /\
  sync_requests (trace_of r) = 0 /\
  calls (trace_of r) = [GetSession; snapshot_request].
Proof.
  intros s r. split; [split; [reflexivity | discriminate] |].
  apply (verified_admin_is_left_unrepaired
           (sample_authority s (Resolved (response VNull VNull)))
           tt tt tt (session_value "user-1") s); reflexivity.
Defined.

(** C7, as stated, fails when the snapshot fetch rejects: the error is
    caught, yet the verdict is "Failed to check admin status." and not
    "Failed to verify admin access.". *)
Lemma rejected_snapshot_counterexample :
  let r := run (R := unreachable_authority) verifyAndFixAdminAccess tt in
  some_call_rejected (trace_of r) /\
  result_of r
  = Returned {| verdict_success := false;
                verdict_message := "Failed to check admin status." |} /\
  result_of r
  <> Returned {| verdict_success := false;
                 verdict_message := "Failed to verify admin access." |} /\
  ~ errors_become_verification_failed.
Proof.
  intros r.
  assert (Hr : some_call_rejected (trace_of r)).
  { exists snapshot_request, (new_Error "Failed to fetch").
    cbn. right. right. right. left. reflexivity. }
  split; [exact Hr |]. split; [reflexivity |]. split; [discriminate |].
  intros claim. destruct (claim unreachable_authority tt) as (v & Hv & Hg).
  specialize (Hg Hr). subst v. discriminate Hv.
Qed.

(** C8, as stated, fails twice for [grantAdminRole]: an answer with
    neither data nor error is returned as [null], which is no
    [RoleOperationResult]; and an error whose text is empty is reported
    under the text "Failed to grant admin role". *)
Lemma mutation_answer_counterexample :
  (result_of (run (R := silent_authority) (grantAdminRole (VStr "user-2")) tt)
   = Returned VNull /\
   is_RoleOperationResult VNull = false) /\
  (result_of (run (R := wordless_authority) (grantAdminRole (VStr "user-2")) tt)
   = Returned (failure (VStr "Failed to grant admin role")) /\
   VStr "Failed to grant admin role" <> VStr "") /\
  ~ mutation_always_answers "grant_admin_role" grantAdminRole.
Proof.
  split; [split; reflexivity |]. split; [split; [reflexivity | discriminate] |].
  intros claim.
  destruct (claim silent_authority (VStr "user-2") tt) as (v & Hv & Hr & _).
  injection Hv as <-. discriminate Hr.
Qed.

(** An authority that refuses a mutation in its own words has them
    passed on. *)
Lemma role_mutations_never_raise_witness :
  result_of
    (run (R := refusing_authority "Only admins can grant admin role")
       (grantAdminRole (VStr "user-2")) tt)
  = Returned
      (result_value
         {| success := false; message := "Only admins can grant admin role";
            user_id := None; user_email := None |}).
Proof.
  destruct (role_mutations_never_raise
              (refusing_authority "Only admins can grant admin role")
              (VStr "user-2") tt) as [(v & Hv & _ & Htext & _) _].
  rewrite Hv. f_equal.
  apply (Htext (response VNull
                  (obj [("message", VStr "Only admins can grant admin role")]))
               "Only admins can grant admin role");
    try reflexivity; discriminate.
Defined.

(** An unreachable authority makes the sync fail and the admin check
    answer [false]; neither raises. *)
Lemma syncAdminRole_reports_request_witness :
  result_of (run (R := unreachable_authority) (syncAdminRole (VStr "user-1")) tt)
  = Returned false.
Proof.
  destruct (syncAdminRole_reports_request unreachable_authority
              (VStr "user-1") tt) as (b & Hb & Hiff & _).
  rewrite Hb. f_equal. destruct b; [| reflexivity].
  destruct (proj1 Hiff eq_refl) as (resp & Hresp & _). discriminate Hresp.
Defined.

Lemma isCurrentUserAdmin_never_raises_witness :
  result_of (run (R := unreachable_authority) isCurrentUserAdmin tt)
  = Returned false.
Proof.
  destruct (isCurrentUserAdmin_never_raises unreachable_authority tt)
    as [(b & Hb & Hrej & _) _].
  rewrite Hb. f_equal. apply (Hrej (new_Error "Failed to fetch")). reflexivity.
Defined.

Lemma verification_never_raises_witness :
  result_of (run (R := unreachable_authority) verifyAndFixAdminAccess tt)
  = Returned status_unavailable.
Proof.
  destruct (verification_never_raises unreachable_authority tt)
    as (v & Hv & _ & _ & _ & Hsnapshot & _).
  rewrite Hv. f_equal.
  apply (Hsnapshot (session_value "user-1") (new_Error "Failed to fetch") tt tt);
    reflexivity.
Defined.

(* ===================================================================== *)
(** * Further properties of the reconciliation *)
(* ===================================================================== *)

Lemma strict_equals_text (v : value) (text : string) :
  strict_equals v (VStr text) = true <-> v = VStr text.
Proof.
  split.
  - destruct v; cbn; try discriminate. rewrite String.eqb_eq. congruence.
  - intros ->. cbn. apply String.eqb_refl.
Qed.

Section Reconciliation.

Variable R : authority.

Import AdminService.

Lemma run_getAdminStatus (w : world R) :
  result_of (run getAdminStatus w)
  = Returned (snapshot_of (fst (respond R w snapshot_request))) /\
  calls (trace_of (run getAdminStatus w)) = [snapshot_request].
Proof.
  unfold getAdminStatus. cbn. fold snapshot_request.
  destruct (respond R w snapshot_request) as [[resp | e] w']; cbn;
    [| split; reflexivity].
  unfold member, reports_error. destruct (nullish resp); cbn;
    [split; reflexivity |].
  destruct (truthy (get resp "error")); cbn; split; reflexivity.
Qed.

(** X1.  [getAdminStatus] never raises: it returns [null] when its call
    rejects or reports an error, and otherwise the data of the answer as
    it came, so that a snapshot sent by the authority is the snapshot
    returned. *)
Theorem getAdminStatus_never_raises (w : world R) :
  let o := fst (respond R w snapshot_request) in
  exists v : value,
    result_of (run getAdminStatus w) = Returned v /\
    (forall e, o = Rejected e -> v = VNull) /\
    (forall resp, o = Resolved resp -> reports_error resp = true ->
       v = VNull) /\
    (forall resp, o = Resolved resp -> nullish resp = false ->
       reports_error resp = false -> v = get resp "data") /\
    (forall s, o = snapshot_answer s -> v = status_value s).
Proof.
  intros o. exists (snapshot_of o). split; [apply run_getAdminStatus |].
  repeat split.
  - intros e ->. reflexivity.
  - intros resp -> H. cbn. rewrite H, orb_true_r. reflexivity.
  - intros resp -> N H. cbn. rewrite N, H. reflexivity.
  - intros s ->. reflexivity.
Qed.

(** X2.  Each of [isCurrentUserAdmin], [getAdminStatus], [syncAdminRole],
    [grantAdminRole] and [revokeAdminRole] makes exactly one call, to its
    own procedure and with the user id it was given, whatever the outcome
    of that call: nothing is tried twice. *)
Theorem services_make_one_call (userId : value) (w : world R) :
  calls (trace_of (run isCurrentUserAdmin w))
  = [Rpc "is_current_user_admin" VUndefined] /\
  calls (trace_of (run getAdminStatus w)) = [snapshot_request] /\
  calls (trace_of (run (syncAdminRole userId) w)) = [sync_request userId] /\
  calls (trace_of (run (grantAdminRole userId) w))
  = [mutation_request "grant_admin_role" userId] /\
  calls (trace_of (run (revokeAdminRole userId) w))
  = [mutation_request "revoke_admin_role" userId].
Proof.
  split; [| split; [apply run_getAdminStatus | split; [| split]]].
  - unfold isCurrentUserAdmin. cbn.
    destruct (respond R w (Rpc "is_current_user_admin" VUndefined))
      as [[resp | e] w']; cbn; [| reflexivity].
    unfold member. destruct (nullish resp); cbn; [reflexivity |].
    destruct (truthy (get resp "error")); reflexivity.
  - unfold syncAdminRole. cbn.
    destruct (respond R w (sync_request userId)) as [[resp | e] w']; cbn;
      [| reflexivity].
    unfold member. destruct (nullish resp); cbn; [reflexivity |].
    destruct (truthy (get resp "error")); reflexivity.
  - unfold grantAdminRole, mutation_request. cbn.
    destruct (respond R w _) as [[resp | e] w']; cbn.
    + unfold member. destruct (nullish resp); cbn; [reflexivity |].
      destruct (truthy (get resp "error")) eqn:E; cbn; [| reflexivity].
      rewrite (truthy_not_nullish _ E). reflexivity.
    + destruct (instanceof_Error e) eqn:I; cbn; [| reflexivity].
      unfold member. rewrite (instanceof_Error_not_nullish _ I). reflexivity.
  - unfold revokeAdminRole, mutation_request. cbn.
    destruct (respond R w _) as [[resp | e] w']; cbn.
    + unfold member. destruct (nullish resp); cbn; [reflexivity |].
      destruct (truthy (get resp "error")) eqn:E; cbn; [| reflexivity].
      rewrite (truthy_not_nullish _ E). reflexivity.
    + destruct (instanceof_Error e) eqn:I; cbn; [| reflexivity].
      unfold member. rewrite (instanceof_Error_not_nullish _ I). reflexivity.
Qed.

(** One step of a run on an arbitrary authority: the next call is
    answered, the next property read succeeds or throws, the next test
    goes one way or the other. *)
Ltac run_step :=
  match goal with
  | |- context [respond R ?w ?c] =>
      let resp := fresh "resp" in
      let e := fresh "e" in
      let w' := fresh "w" in
      let E := fresh "Call" in
      destruct (respond R w c) as [[resp | e] w'] eqn:E
  | |- context [member ?v ?p] =>
      let N := fresh "N" in
      destruct (nullish v) eqn:N;
      [ rewrite !(proj1 (member_raises v p) N)
      | rewrite !(member_defined v p N) ]
  | |- context [if nullish ?v then _ else _] =>
      let N := fresh "N" in destruct (nullish v) eqn:N
  | |- context [if truthy ?v then _ else _] =>
      let T := fresh "T" in destruct (truthy v) eqn:T
  | |- context [truthy ?a || negb (truthy ?b)] =>
      let T := fresh "T" in
      destruct (truthy a) eqn:T;
      [ | let T' := fresh "T" in destruct (truthy b) eqn:T' ]
  | |- context [if negb (truthy ?v) then _ else _] =>
      let T := fresh "T" in destruct (truthy v) eqn:T
  | |- context [if strict_equals ?a ?b then _ else _] =>
      let S := fresh "S" in destruct (strict_equals a b) eqn:S
  | |- context [negb (strict_equals ?a ?b)] =>
      let S := fresh "S" in destruct (strict_equals a b) eqn:S
  end; cbn.

Ltac run_verification :=
  unfold verifyAndFixAdminAccess, verifyAndFixAdminAccess_body,
    getAdminStatus, syncAdminRole, role_mismatch,
    destructure_session, destructure_data_error;
  cbn; fold snapshot_request; repeat run_step.

(** X6.  Whatever the authority does, the verdict is one of the seven
    fixed verdicts of the service: no text of the authority, and no text
    of an error, reaches the message. *)
Theorem verdict_is_a_fixed_text (w : world R) :
  exists v : Verdict,
    result_of (run verifyAndFixAdminAccess w) = Returned v /\ In v verdicts.
Proof.
  run_verification.
  all: eexists; split; [reflexivity |]; cbn; tauto.
Qed.

(** X4.  Whatever the authority does, the calls of a run are the session
    accessor alone, or the accessor and one snapshot fetch, or these two
    and one sync request, which then is for the [user.id] of the session
    the accessor answered with. *)
Theorem calls_follow_the_protocol (w : world R) :
  let tr := trace_of (run verifyAndFixAdminAccess w) in
  calls tr = [GetSession] \/
  calls tr = [GetSession; snapshot_request] \/
  exists sresp,
    In (Called GetSession (Resolved sresp)) tr /\
    calls tr
    = [GetSession; snapshot_request;
       sync_request (session_user_id (session_of sresp))].
Proof.
  run_verification.
  all: try (left; reflexivity); try (right; left; reflexivity).
  all: right; right; eexists; split; [right; left; reflexivity | reflexivity].
Qed.

(** X5.  A verdict of success is backed by the authority: the session
    accessor answered with a session and without error, the snapshot fetch
    answered without error with an [authenticated] snapshot, and either
    its [is_admin_result] is set, or its [metadata_role] is ["admin"], its
    [profile_role] is not, and the sync requested for the user of the
    session succeeded.  In particular [profile_role] alone never gives a
    success. *)
Theorem success_is_backed_by_the_authority (w : world R) (v : Verdict) :
  result_of (run verifyAndFixAdminAccess w) = Returned v ->
  verdict_success v = true ->
  let tr := trace_of (run verifyAndFixAdminAccess w) in
  exists sresp qresp,
    In (Called GetSession (Resolved sresp)) tr /\
    In (Called snapshot_request (Resolved qresp)) tr /\
    reports_error sresp = false /\
    truthy (session_of sresp) = true /\
    reports_error qresp = false /\
    truthy (get (get qresp "data") "authenticated") = true /\
    (truthy (get (get qresp "data") "is_admin_result") = true \/
     (get (get qresp "data") "metadata_role" = VStr "admin" /\
      get (get qresp "data") "profile_role" <> VStr "admin" /\
      exists o,
        In (Called (sync_request (session_user_id (session_of sresp))) o) tr /\
        request_succeeded o = true)).
Proof.
  run_verification.
  all: intros [= <-] Hs; try discriminate Hs.
  all: unfold session_of, session_user_id, reports_error.
  all: try match goal with H : true = false |- _ => discriminate H end.
  all: match goal with
       | Hs : respond R _ GetSession = (Resolved ?a, _),
         Hq : respond R _ snapshot_request = (Resolved ?b, _) |- _ =>
           exists a, b
       end.
  all: split; [right; left; reflexivity |].
  all: split; [do 3 right; left; reflexivity |].
  all: repeat (split; [assumption |]).
  all: try (left; assumption).
  all: right; split; [apply strict_equals_text; assumption |].
  all: split; [intros Hp; apply strict_equals_text in Hp; congruence |].
  all: eexists; split; [do 7 right; left; reflexivity |].
  all: cbn; unfold reports_error;
    repeat match goal with H : _ = _ |- _ => rewrite H end; reflexivity.
Qed.

(** X3.  With a session, a snapshot fetch that rejects, reports an error
    or carries no data ends the run with the failure "Failed to check
    admin status.", and no sync is requested. *)
Theorem unavailable_snapshot_ends_the_run (w0 w1 w2 : world R)
  (session : value) (o : outcome) :
  truthy session = true ->
  respond R w0 GetSession = (session_answer session, w1) ->
  respond R w1 snapshot_request = (o, w2) ->
  truthy (snapshot_of o) = false ->
  let r := run verifyAndFixAdminAccess w0 in
  result_of r
  = Returned {| verdict_success := false;
                verdict_message := "Failed to check admin status." |} /\
  calls (trace_of r) = [GetSession; snapshot_request].
Proof.
  intros Hl Hs Hq Hn.
  unfold verifyAndFixAdminAccess, verifyAndFixAdminAccess_body, getAdminStatus.
  cbn. rewrite Hs. cbn. rewrite Hl. cbn. fold snapshot_request. rewrite Hq.
  destruct o as [resp | e]; cbn; [| split; reflexivity].
  cbn in Hn. unfold reports_error in Hn. unfold member.
  destruct (nullish resp); cbn; [split; reflexivity |].
  destruct (truthy (get resp "error")); cbn; [split; reflexivity |].
  cbn in Hn. rewrite Hn. cbn. split; reflexivity.
Qed.

(** X12.  The snapshot is read by truthiness, not as booleans: with a
    session and any snapshot that is not falsy itself, a falsy
    [authenticated] gives "User is not authenticated.", and a truthy
    [authenticated] with a truthy [is_admin_result] gives "Admin access
    verified successfully.", whatever the types of the two fields. *)
Theorem snapshot_is_read_by_truthiness (w0 w1 w2 : world R)
  (session status : value) :
  truthy session = true ->
  respond R w0 GetSession = (session_answer session, w1) ->
  respond R w1 snapshot_request = (Resolved (response status VNull), w2) ->
  truthy status = true ->
  let r := run verifyAndFixAdminAccess w0 in
  (truthy (get status "authenticated") = false ->
   result_of r = Returned not_authenticated) /\
  (truthy (get status "authenticated") = true ->
   truthy (get status "is_admin_result") = true ->
   result_of r = Returned verified).
Proof.
  intros Hl Hs Hq Ht.
  unfold verifyAndFixAdminAccess, verifyAndFixAdminAccess_body, getAdminStatus.
  cbn. rewrite Hs. cbn. rewrite Hl. cbn. fold snapshot_request. rewrite Hq.
  cbn. rewrite Ht. cbn.
  rewrite !(member_defined status) by exact (truthy_not_nullish _ Ht). cbn.
  split.
  - intros ->. reflexivity.
  - intros -> Hi. cbn. rewrite Hi. reflexivity.
Qed.

(** X7.  When the roles mismatch and the sync request succeeds, the
    verdict is the success "Admin role synced. Please refresh the page or
    log out and log back in.". *)
Theorem repaired_mismatch_asks_for_a_new_login (w0 w1 w2 w3 : world R)
  (session : value) (s : AdminStatus) (o : outcome) :
  live_session session = true ->
  respond R w0 GetSession = (session_answer session, w1) ->
  respond R w1 snapshot_request = (snapshot_answer s, w2) ->
  respond R w2 (sync_request (session_user_id session)) = (o, w3) ->
  authenticated s = true ->
  is_admin_result s = false ->
  metadata_role s = Some "admin" ->
  profile_role s <> Some "admin" ->
  request_succeeded o = true ->
  result_of (run verifyAndFixAdminAccess w0)
  = Returned
      {| verdict_success := true;
         verdict_message :=
           "Admin role synced. Please refresh the page or log out and log back in." |}.
Proof.
  intros Hl Hs Hq Hy Ha Hi Hm Hp Ho.
  destruct (run_mismatch R _ _ _ _ _ _ _ Hl Hs Hq Hy Ha Hi Hm Hp) as [Hr _].
  rewrite Hr, Ho. reflexivity.
Qed.

(** X8.  A session that names no user passes every check until the sync
    needs its [user.id]: on a role mismatch reading it fails, no sync is
    requested and the verdict is the failure "Failed to verify admin
    access.". *)
Theorem session_without_user_fails_verification (w0 w1 w2 : world R)
  (session : value) (s : AdminStatus) :
  truthy session = true ->
  nullish (get session "user") = true ->
  respond R w0 GetSession = (session_answer session, w1) ->
  respond R w1 snapshot_request = (snapshot_answer s, w2) ->
  authenticated s = true ->
  is_admin_result s = false ->
  metadata_role s = Some "admin" ->
  profile_role s <> Some "admin" ->
  let r := run verifyAndFixAdminAccess w0 in
  result_of r
  = Returned {| verdict_success := false;
                verdict_message := "Failed to verify admin access." |} /\
  sync_requests (trace_of r) = 0.
Proof.
  intros Hl Hu Hs Hq Ha Hi Hm Hp r.
  destruct (run_session_without_user R _ _ _ _ _ Hl Hu Hs Hq Ha Hi Hm Hp)
    as [Hr Hk].
  subst r. unfold sync_requests, count_rpc. rewrite Hr, Hk.
  split; reflexivity.
Qed.

(** X9.  An error that leaves the [try] block of
    [verifyAndFixAdminAccess] is written to the console at error level,
    the error itself included, while the verdict is the fixed failure
    "Failed to verify admin access.". *)
Theorem caught_error_is_logged (w : world R) (e : value) :
  result_of (run verifyAndFixAdminAccess_body w) = Raised e ->
  let r := run verifyAndFixAdminAccess w in
  result_of r = Returned verification_failed /\
  In (Logged ErrorLevel
        [VStr "AdminService: Error in verifyAndFixAdminAccess:"; e])
     (trace_of r).
Proof.
  intros He. unfold verifyAndFixAdminAccess.
  change (@catch value prog MonadExc_prog Verdict) with (@try_catch Verdict).
  rewrite run_try_catch, He. split; [reflexivity |].
  unfold after. cbn [trace_of]. apply in_or_app. right. left. reflexivity.
Qed.

(** X10.  The two versions of [isCurrentUserAdmin] differ in their
    console texts only: on every authority they return the same boolean,
    make the same call and leave the authority in the same state. *)
Theorem isCurrentUserAdmin_versions_agree (w : world R) :
  let r := run AdminService.isCurrentUserAdmin w in
  let r' := run AdminServiceBase.isCurrentUserAdmin w in
  result_of r = result_of r' /\
  calls (trace_of r) = calls (trace_of r') /\
  world_of r = world_of r'.
Proof.
  unfold AdminService.isCurrentUserAdmin, AdminServiceBase.isCurrentUserAdmin.
  cbn.
  destruct (respond R w (Rpc "is_current_user_admin" VUndefined))
    as [[resp | e] w']; cbn; [| repeat split].
  unfold member. destruct (nullish resp); cbn; [repeat split |].
  destruct (truthy (get resp "error")); cbn; repeat split.
Qed.

(** X11.  A [RoleOperationResult] the authority answers a mutation with,
    without error, is what [grantAdminRole] and [revokeAdminRole] return:
    the encoded result comes back unchanged and is recognised as a
    [RoleOperationResult]. *)
Theorem mutation_result_round_trip (userId error : value)
  (r : RoleOperationResult) (w w' : world R) :
  respond R w (mutation_request "grant_admin_role" userId)
  = (Resolved (response (result_value r) error), w') ->
  respond R w (mutation_request "revoke_admin_role" userId)
  = (Resolved (response (result_value r) error), w') ->
  truthy error = false ->
  result_of (run (grantAdminRole userId) w) = Returned (result_value r) /\
  result_of (run (revokeAdminRole userId) w) = Returned (result_value r) /\
  is_RoleOperationResult (result_value r) = true.
Proof.
  intros Hg Hr He. unfold mutation_request in Hg, Hr.
  split; [| split].
  - unfold grantAdminRole. cbn. rewrite Hg. cbn. rewrite He. reflexivity.
  - unfold revokeAdminRole. cbn. rewrite Hr. cbn. rewrite He. reflexivity.
  - destruct r as [ok text [uid |] [mail |]]; reflexivity.
Qed.

End Reconciliation.

(* ===================================================================== *)
(** * The listings *)
(* ===================================================================== *)

Section Listings.

Variable R : authority.
Variable ToString : value -> string + value.

Import AdminService.

Lemma or_else_falsy (a b : value) : truthy a = false -> or_else a b = b.
Proof. intros H. unfold or_else. rewrite H. reflexivity. Qed.

(** [throw new Error(message)] inside a [try] whose [catch] logs and
    throws again. *)
Lemma run_throw_constructed (message : value) (label : string)
  (w : world R) :
  let p :=
    try_catch
      (prog_bind (construct_Error ToString message)
         (fun e => Throw (A := value) e))
      (fun error =>
         Console ErrorLevel [VStr label; error] (Throw error)) in
  result_of (run p w) = thrown_Error ToString message /\
  calls (trace_of (run p w)) = [].
Proof.
  unfold construct_Error, thrown_Error.
  destruct message; cbn; try (split; reflexivity);
    destruct (ToString _) as [text | e]; cbn; split; reflexivity.
Qed.

(** What a listing does with the outcome of its call: the body of
    [getAllAdmins] and of [getAllUsers] up to the texts. *)
Ltac listing_cases w :=
  let resp := fresh "resp" in
  let e := fresh "e" in
  let N := fresh "N" in
  let E := fresh "E" in
  unfold listing_result, reports_error; cbn;
  match goal with
  | |- context [respond R w ?c] =>
      destruct (respond R w c) as [[resp | e] ?]; cbn
  end;
  [ destruct (nullish resp) eqn:N;
    [ rewrite (proj1 (member_raises resp "data") N)
    | rewrite !(member_defined resp) by exact N; cbn;
      destruct (truthy (get resp "error")) eqn:E; cbn;
      [ rewrite (member_defined (get resp "error"))
          by exact (truthy_not_nullish _ E) | ] ]
  | ]; cbn; try reflexivity.

Lemma result_getAllAdmins (w : world R) :
  result_of (run (getAllAdmins ToString) w)
  = listing_result ToString "Failed to fetch admin users"
      (fst (respond R w (Rpc "get_all_admins" VUndefined))) /\
  calls (trace_of (run (getAllAdmins ToString) w))
  = [Rpc "get_all_admins" VUndefined].
Proof.
  unfold getAllAdmins. listing_cases w; try (split; reflexivity).
  match goal with
  | |- context [run (try_catch (prog_bind (construct_Error ToString ?m) _) _)
                  ?w'] =>
      destruct (run_throw_constructed m "Error in getAllAdmins:" w') as [-> ->]
  end.
  split; reflexivity.
Qed.

Lemma result_getAllUsers (searchQuery roleFilter limitCount offsetCount : value)
  (w : world R) :
  let request :=
    users_request (default_parameter searchQuery (VStr ""))
      (default_parameter roleFilter (VStr "all"))
      (default_parameter limitCount (VNum 50))
      (default_parameter offsetCount (VNum 0)) in
  let r :=
    run (getAllUsers ToString searchQuery roleFilter limitCount offsetCount) w in
  result_of r
  = listing_result ToString "Failed to fetch users" (fst (respond R w request)) /\
  calls (trace_of r) = [request].
Proof.
  unfold getAllUsers. listing_cases w; try (split; reflexivity).
  match goal with
  | |- context [run (try_catch (prog_bind (construct_Error ToString ?m) _) _)
                  ?w'] =>
      destruct (run_throw_constructed m "Error in getAllUsers:" w') as [-> ->]
  end.
  split; reflexivity.
Qed.

(** What the result of a listing says about the outcome of its call. *)
Lemma listing_returns (fallback : string) (o : outcome) (v : value) :
  listing_result ToString fallback o = Returned v <->
  exists resp,
    o = Resolved resp /\ nullish resp = false /\
    reports_error resp = false /\ v = get resp "data".
Proof.
  unfold listing_result. split.
  - destruct o as [resp | e]; [| discriminate].
    destruct (nullish resp) eqn:N; [discriminate |].
    destruct (reports_error resp) eqn:E.
    + unfold thrown_Error. destruct (or_else _ _); try discriminate;
        destruct (ToString _); discriminate.
    + intros [= <-]. exists resp. auto.
  - intros (resp & -> & N & E & ->). rewrite N, E. reflexivity.
Qed.

Lemma listing_raises (fallback : string) (o : outcome) :
  (forall e, o = Rejected e ->
     listing_result ToString fallback o = Raised e) /\
  (forall resp, o = Resolved resp -> reports_error resp = true ->
     truthy (get (get resp "error") "message") = false ->
     listing_result ToString fallback o = Raised (new_Error fallback)) /\
  (forall resp text, o = Resolved resp -> reports_error resp = true ->
     get (get resp "error") "message" = VStr text -> text <> "" ->
     listing_result ToString fallback o = Raised (new_Error text)) /\
  (forall resp, o = Resolved resp -> reports_error resp = true ->
     exists e, listing_result ToString fallback o = Raised e).
Proof.
  unfold listing_result. repeat split.
  - intros e ->. reflexivity.
  - intros resp -> E M. rewrite (nullish_reports_nothing _ E), E.
    rewrite (or_else_falsy _ _ M). reflexivity.
  - intros resp text -> E M T. rewrite (nullish_reports_nothing _ E), E, M.
    rewrite (or_else_text _ _ T). reflexivity.
  - intros resp -> E. rewrite (nullish_reports_nothing _ E), E.
    unfold thrown_Error. destruct (or_else _ _); try (eexists; reflexivity);
      destruct (ToString _); eexists; reflexivity.
Qed.

(** X13.  [getAllAdmins] returns exactly when its call completes without
    reporting an error, and then it returns the data of the answer as it
    came. *)
Theorem getAllAdmins_returns_the_data (w : world R) (v : value) :
  let o := fst (respond R w (Rpc "get_all_admins" VUndefined)) in
  result_of (run (getAllAdmins ToString) w) = Returned v <->
  exists resp,
    o = Resolved resp /\ nullish resp = false /\
    reports_error resp = false /\ v = get resp "data".
Proof.
  intros o. rewrite (proj1 (result_getAllAdmins w)). apply listing_returns.
Qed.

(** X14.  [getAllAdmins] fails loudly: a rejection of its call is raised
    again as it is, and a reported error is raised as an [Error] carrying
    the authority's text, or "Failed to fetch admin users" when that text
    is empty or missing; on a reported error it never returns. *)
Theorem getAllAdmins_fails_loudly (w : world R) :
  let o := fst (respond R w (Rpc "get_all_admins" VUndefined)) in
  let r := result_of (run (getAllAdmins ToString) w) in
  (forall e, o = Rejected e -> r = Raised e) /\
  (forall resp, o = Resolved resp -> reports_error resp = true ->
     truthy (get (get resp "error") "message") = false ->
     r = Raised (new_Error "Failed to fetch admin users")) /\
  (forall resp text, o = Resolved resp -> reports_error resp = true ->
     get (get resp "error") "message" = VStr text -> text <> "" ->
     r = Raised (new_Error text)) /\
  (forall resp, o = Resolved resp -> reports_error resp = true ->
     exists e, r = Raised e).
Proof.
  intros o r. subst r. rewrite (proj1 (result_getAllAdmins w)).
  apply listing_raises.
Qed.

Section Users.

Variables searchQuery roleFilter limitCount offsetCount : value.

(** X15.  [getAllUsers] makes exactly one call whatever its outcome, to
    [get_all_users] with the four arguments as given, an [undefined]
    argument, and no other, being replaced by its default: [''], ['all'],
    [50] and [0]. *)
Theorem getAllUsers_sends_one_request (w : world R) :
  calls (trace_of
           (run (getAllUsers ToString searchQuery roleFilter limitCount
                   offsetCount) w))
  = [users_request (default_parameter searchQuery (VStr ""))
       (default_parameter roleFilter (VStr "all"))
       (default_parameter limitCount (VNum 50))
       (default_parameter offsetCount (VNum 0))].
Proof. apply result_getAllUsers. Qed.

(** X16.  [getAllUsers] returns exactly when its call completes without
    reporting an error, and then it returns the data of the answer as it
    came. *)
Theorem getAllUsers_returns_the_data (w : world R) (v : value) :
  let o :=
    fst (respond R w
           (users_request (default_parameter searchQuery (VStr ""))
              (default_parameter roleFilter (VStr "all"))
              (default_parameter limitCount (VNum 50))
              (default_parameter offsetCount (VNum 0)))) in
  result_of (run (getAllUsers ToString searchQuery roleFilter limitCount
                    offsetCount) w) = Returned v <->
  exists resp,
    o = Resolved resp /\ nullish resp = false /\
    reports_error resp = false /\ v = get resp "data".
Proof.
  intros o.
  rewrite (proj1 (result_getAllUsers searchQuery roleFilter limitCount
                    offsetCount w)).
  apply listing_returns.
Qed.

(** X17.  [getAllUsers] fails loudly: a rejection of its call is raised
    again as it is, and a reported error is raised as an [Error] carrying
    the authority's text, or "Failed to fetch users" when that text is
    empty or missing; on a reported error it never returns. *)
Theorem getAllUsers_fails_loudly (w : world R) :
  let o :=
    fst (respond R w
           (users_request (default_parameter searchQuery (VStr ""))
              (default_parameter roleFilter (VStr "all"))
              (default_parameter limitCount (VNum 50))
              (default_parameter offsetCount (VNum 0)))) in
  let r :=
    result_of (run (getAllUsers ToString searchQuery roleFilter limitCount
                      offsetCount) w) in
  (forall e, o = Rejected e -> r = Raised e) /\
  (forall resp, o = Resolved resp -> reports_error resp = true ->
     truthy (get (get resp "error") "message") = false ->
     r = Raised (new_Error "Failed to fetch users")) /\
  (forall resp text, o = Resolved resp -> reports_error resp = true ->
     get (get resp "error") "message" = VStr text -> text <> "" ->
     r = Raised (new_Error text)) /\
  (forall resp, o = Resolved resp -> reports_error resp = true ->
     exists e, r = Raised e).
Proof.
  intros o r. subst r.
  rewrite (proj1 (result_getAllUsers searchQuery roleFilter limitCount
                    offsetCount w)).
  apply listing_raises.
Qed.

End Users.

End Listings.

(* ===================================================================== *)
(** * The statistics *)
(* ===================================================================== *)

Section Statistics.

Import AdminService.

(** A filter whose callback reads property [p] and tests it keeps the
    rows that pass when every row can be read, and throws at the first
    row that cannot. *)
Lemma filter_rows_reads (p : string) (test : value -> bool)
  (rows : list value) :
  filter_rows (fun u => prog_bind (member u p) (fun x => Ret (test x))) rows
  = if readable_rows rows
    then Ret (List.filter (fun u => test (get u p)) rows)
    else Throw (TypeError p).
Proof.
  induction rows as [| u rows IH]; [reflexivity |].
  cbn [filter_rows readable_rows forallb List.filter].
  change (forallb (fun u => negb (nullish u)) rows) with (readable_rows rows).
  cbn [bind Monad_prog ret]. unfold member at 1.
  destruct (nullish u); cbn; [reflexivity |].
  rewrite IH. destruct (readable_rows rows); cbn; [| reflexivity].
  destruct (test (get u p)); reflexivity.
Qed.

Lemma filter_length_le {A : Type} (f : A -> bool) (l : list A) :
  List.length (List.filter f l) <= List.length l.
Proof.
  induction l as [| a l IH]; cbn; [lia |]. destruct (f a); cbn; lia.
Qed.

(** No row is both an admin's and a client's. *)
Lemma admin_client_rows_le (rows : list value) :
  List.length (admin_rows rows) + List.length (client_rows rows)
  <= List.length rows.
Proof.
  unfold admin_rows, client_rows.
  induction rows as [| u rows IH]; cbn; [lia |].
  destruct (get u "role") as [| | | | | role |]; cbn; try lia.
  destruct (String.eqb_spec role "admin") as [-> | _]; cbn; [lia |].
  destruct (String.eqb role "client"); cbn; lia.
Qed.

Lemma admin_client_rows_partition (rows : list value) :
  List.length (admin_rows rows) + List.length (client_rows rows)
  = List.length rows <->
  Forall (fun u => get u "role" = VStr "admin" \/ get u "role" = VStr "client")
    rows.
Proof.
  induction rows as [| u rows IH]; [split; [constructor | reflexivity] |].
  pose proof (admin_client_rows_le rows) as Hle.
  unfold admin_rows, client_rows in *. cbn.
  destruct (strict_equals (get u "role") (VStr "admin")) eqn:Ea;
    destruct (strict_equals (get u "role") (VStr "client")) eqn:Ec; cbn.
  - apply strict_equals_text in Ea, Ec. congruence.
  - apply strict_equals_text in Ea. split.
    + intros H. constructor; [auto |]. apply IH. lia.
    + intros H. inversion H as [| ? ? _ Hrest]; subst.
      apply IH in Hrest. lia.
  - apply strict_equals_text in Ec. split.
    + intros H. constructor; [auto |]. apply IH. lia.
    + intros H. inversion H as [| ? ? _ Hrest]; subst.
      apply IH in Hrest. lia.
  - split; [lia |]. intros H. inversion H as [| ? ? [Hr | Hr] _]; subst;
      apply strict_equals_text in Hr; congruence.
Qed.

Variable R : authority.

Lemma run_getUserStats_rows (rows : list value) (error : value)
  (w : world R) :
  truthy error = false ->
  result_of (run (getUserStats (Selected (Some rows) error)) w)
  = if readable_rows rows
    then Returned {| totalUsers := List.length rows;
                     totalAdmins := List.length (admin_rows rows);
                     totalClients := List.length (client_rows rows);
                     activeUsers := List.length (active_rows rows) |}
    else Raised (TypeError "role").
Proof.
  intros He. unfold getUserStats, count_rows, data_length,
    is_admin_row, is_client_row, is_active_row.
  rewrite He. cbn [bind Monad_prog ret catch MonadExc_prog raise].
  cbn [prog_bind]. rewrite !filter_rows_reads.
  destruct (readable_rows rows); reflexivity.
Qed.

Lemma run_getUserStats_failures (w : world R) :
  (forall e, result_of (run (getUserStats (SelectRejected e)) w) = Raised e) /\
  (forall data error,
     truthy error = true ->
     result_of (run (getUserStats (Selected data error)) w)
     = Raised (new_Error "Failed to fetch user statistics")) /\
  (forall error,
     truthy error = false ->
     result_of (run (getUserStats (Selected None error)) w)
     = Raised (TypeError "length")).
Proof.
  unfold getUserStats. repeat split.
  - intros data error ->. reflexivity.
  - intros error ->. reflexivity.
Qed.

(** X18.  On rows that can be read and an answer without error,
    [getUserStats] returns counts with [totalUsers] the number of rows,
    [totalAdmins + totalClients <= totalUsers] and
    [activeUsers <= totalUsers]. *)
Theorem getUserStats_counts_are_bounded (rows : list value) (error : value)
  (w : world R) :
  truthy error = false ->
  readable_rows rows = true ->
  exists stats : UserStats,
    result_of (run (getUserStats (Selected (Some rows) error)) w)
    = Returned stats /\
    totalUsers stats = List.length rows /\
    totalAdmins stats + totalClients stats <= totalUsers stats /\
    activeUsers stats <= totalUsers stats.
Proof.
  intros He Hr. rewrite (run_getUserStats_rows _ _ _ He), Hr.
  eexists. split; [reflexivity |]. cbn. split; [reflexivity |].
  split; [apply admin_client_rows_le | apply filter_length_le].
Qed.

(** X19.  On rows that can be read and an answer without error, the
    admins and the clients counted by [getUserStats] add up to
    [totalUsers] exactly when every row has the role ["admin"] or
    ["client"]. *)
Theorem getUserStats_counts_everyone_once (rows : list value) (error : value)
  (w : world R) :
  truthy error = false ->
  readable_rows rows = true ->
  exists stats : UserStats,
    result_of (run (getUserStats (Selected (Some rows) error)) w)
    = Returned stats /\
    (totalAdmins stats + totalClients stats = totalUsers stats <->
     Forall (fun u => get u "role" = VStr "admin"
                      \/ get u "role" = VStr "client") rows).
Proof.
  intros He Hr. rewrite (run_getUserStats_rows _ _ _ He), Hr.
  eexists. split; [reflexivity |]. cbn. apply admin_client_rows_partition.
Qed.

Lemma filter_length_Permutation {A : Type} (f : A -> bool) (l l' : list A) :
  Permutation l l' ->
  List.length (List.filter f l) = List.length (List.filter f l').
Proof.
  induction 1 as [| a l l' _ IH | a b l | l l' l'' _ IH _ IH']; cbn.
  - reflexivity.
  - destruct (f a); cbn; congruence.
  - destruct (f a), (f b); reflexivity.
  - congruence.
Qed.

Lemma readable_rows_Permutation (rows rows' : list value) :
  Permutation rows rows' -> readable_rows rows = readable_rows rows'.
Proof.
  unfold readable_rows.
  induction 1 as [| a l l' _ IH | a b l | l l' l'' _ IH _ IH']; cbn.
  - reflexivity.
  - rewrite IH. reflexivity.
  - destruct (nullish a), (nullish b); reflexivity.
  - congruence.
Qed.

(** X20.  On rows that can be read, the result of [getUserStats] does not
    depend on the order in which the authority sends them. *)
Theorem getUserStats_ignores_the_order (rows rows' : list value)
  (error : value) (w : world R) :
  Permutation rows rows' ->
  readable_rows rows = true ->
  result_of (run (getUserStats (Selected (Some rows) error)) w)
  = result_of (run (getUserStats (Selected (Some rows') error)) w).
Proof.
  intros Hp _. destruct (truthy error) eqn:He.
  - destruct (run_getUserStats_failures w) as (_ & Hf & _).
    rewrite !Hf by exact He. reflexivity.
  - rewrite !run_getUserStats_rows by exact He.
    rewrite (readable_rows_Permutation _ _ Hp).
    unfold admin_rows, client_rows, active_rows.
    rewrite (Permutation_length Hp).
    rewrite (filter_length_Permutation _ _ _ Hp).
    rewrite (filter_length_Permutation
               (fun u => strict_equals (get u "role") (VStr "client")) _ _ Hp).
    rewrite (filter_length_Permutation
               (fun u => truthy (get u "is_active")) _ _ Hp).
    reflexivity.
Qed.

(** X21.  [getUserStats] fails loudly: a rejection of its query is raised
    again as it is; a reported error is raised as the [Error] "Failed to
    fetch user statistics" whatever the authority's text and data; an
    answer without error and without rows raises too instead of counting
    zero; and it returns exactly on an answer without error whose rows
    can all be read. *)
Theorem getUserStats_fails_loudly (answer : select_outcome) (w : world R) :
  let r := result_of (run (getUserStats answer) w) in
  (forall e, answer = SelectRejected e -> r = Raised e) /\
  (forall data error, answer = Selected data error -> truthy error = true ->
     r = Raised (new_Error "Failed to fetch user statistics")) /\
  (forall error, answer = Selected None error -> truthy error = false ->
     exists e, r = Raised e /\ instanceof_Error e = true) /\
  ((exists stats, r = Returned stats) <->
   exists rows error,
     answer = Selected (Some rows) error /\
     truthy error = false /\ readable_rows rows = true).
Proof.
  intros r. subst r.
  destruct (run_getUserStats_failures w) as (Hrej & Herr & Hnull).
  split; [| split; [| split]].
  - intros e ->. apply Hrej.
  - intros data error -> He. apply Herr, He.
  - intros error -> He. rewrite (Hnull _ He). eexists. split; reflexivity.
  - split.
    + intros [stats Hs]. destruct answer as [[rows |] error | e].
      * destruct (truthy error) eqn:He.
        -- rewrite (Herr _ _ He) in Hs. discriminate.
        -- rewrite (run_getUserStats_rows _ _ _ He) in Hs.
           destruct (readable_rows rows) eqn:Hr; [| discriminate].
           exists rows, error. auto.
      * destruct (truthy error) eqn:He.
        -- rewrite (Herr _ _ He) in Hs. discriminate.
        -- rewrite (Hnull _ He) in Hs. discriminate.
      * rewrite Hrej in Hs. discriminate.
    + intros (rows & error & -> & He & Hr).
      rewrite (run_getUserStats_rows _ _ _ He), Hr. eexists. reflexivity.
Qed.

End Statistics.

(* ===================================================================== *)
(** * The further properties on the sample authorities *)
(* ===================================================================== *)

Import AdminService.

Lemma unavailable_snapshot_ends_the_run_witness :
  let r := run (R := unreachable_authority) verifyAndFixAdminAccess tt in
  result_of r = Returned status_unavailable /\
  calls (trace_of r) = [GetSession; snapshot_request].
Proof.
  apply (unavailable_snapshot_ends_the_run unreachable_authority tt tt tt
           (session_value "user-1") (Rejected (new_Error "Failed to fetch")));
    reflexivity.
Defined.

Lemma success_is_backed_by_the_authority_witness :
  let s := sample_status (Some "client") (Some "admin") true false in
  let R := sample_authority s (Resolved (response VNull VNull)) in
  let tr := trace_of (run (R := R) verifyAndFixAdminAccess tt) in
  result_of (run (R := R) verifyAndFixAdminAccess tt) = Returned synced_verdict /\
  exists sresp qresp,
    In (Called GetSession (Resolved sresp)) tr /\
    In (Called snapshot_request (Resolved qresp)) tr /\
    get (get qresp "data") "metadata_role" = VStr "admin".
Proof.
  intros s R tr. split; [reflexivity |].
  destruct (success_is_backed_by_the_authority R tt synced_verdict
              eq_refl eq_refl)
    as (sresp & qresp & Hs & Hq & _ & _ & _ & _ & [Hadmin | (Hm & _)]).
  - exfalso. cbn in Hq.
    destruct Hq as [Hq | [Hq | [Hq | [Hq | Hq]]]]; try discriminate Hq.
    + injection Hq as <-. discriminate Hadmin.
    + repeat (destruct Hq as [Hq | Hq]; [discriminate Hq |]). exact Hq.
  - exists sresp, qresp. auto.
Defined.

Lemma repaired_mismatch_asks_for_a_new_login_witness :
  let s := sample_status (Some "client") (Some "admin") true false in
  result_of
    (run (R := sample_authority s (Resolved (response VNull VNull)))
       verifyAndFixAdminAccess tt)
  = Returned synced_verdict.
Proof.
  intros s.
  apply (repaired_mismatch_asks_for_a_new_login
           (sample_authority s (Resolved (response VNull VNull)))
           tt tt tt tt (session_value "user-1") s
           (Resolved (response VNull VNull)));
    try reflexivity; discriminate.
Defined.

Lemma session_without_user_fails_verification_witness :
  let s := sample_status (Some "client") (Some "admin") true false in
  let r := run (R := userless_authority s) verifyAndFixAdminAccess tt in
  result_of r = Returned verification_failed /\
  sync_requests (trace_of r) = 0.
Proof.
  intros s.
  apply (session_without_user_fails_verification (userless_authority s)
           tt tt tt (obj [("access_token", VStr "token")]) s);
    try reflexivity; discriminate.
Defined.

Lemma caught_error_is_logged_witness :
  let r := run (R := offline_authority) verifyAndFixAdminAccess tt in
  result_of r = Returned verification_failed /\
  In (Logged ErrorLevel
        [VStr "AdminService: Error in verifyAndFixAdminAccess:";
         new_Error "Failed to fetch"])
     (trace_of r).
Proof.
  apply (caught_error_is_logged offline_authority tt
           (new_Error "Failed to fetch")).
  reflexivity.
Defined.

Lemma mutation_result_round_trip_witness :
  let r := {| success := true; message := "Admin role granted";
              user_id := Some "user-2"; user_email := None |} in
  result_of (run (R := answering_authority r) (grantAdminRole (VStr "user-2")) tt)
  = Returned (result_value r) /\
  result_of (run (R := answering_authority r) (revokeAdminRole (VStr "user-2")) tt)
  = Returned (result_value r) /\
  is_RoleOperationResult (result_value r) = true.
Proof.
  intros r.
  apply (mutation_result_round_trip (answering_authority r) (VStr "user-2")
           VNull r tt tt); reflexivity.
Defined.

(** A snapshot whose [is_admin_result] is the string ["false"] is taken
    for an admin's. *)
Lemma snapshot_is_read_by_truthiness_witness :
  let status := obj [("authenticated", VNum 1);
                     ("is_admin_result", VStr "false")] in
  result_of (run (R := untyped_authority status) verifyAndFixAdminAccess tt)
  = Returned verified.
Proof.
  intros status.
  apply (snapshot_is_read_by_truthiness (untyped_authority status) tt tt tt
           (session_value "user-1") status);
    reflexivity.
Defined.

Lemma getUserStats_counts_are_bounded_witness :
  exists stats : UserStats,
    result_of
      (run (R := signed_out_authority)
         (getUserStats (Selected (Some sample_rows) VNull)) tt)
    = Returned stats /\
    totalUsers stats = 3 /\
    totalAdmins stats + totalClients stats <= totalUsers stats /\
    activeUsers stats <= totalUsers stats.
Proof.
  apply (getUserStats_counts_are_bounded signed_out_authority sample_rows
           VNull tt); reflexivity.
Defined.

Lemma getUserStats_counts_everyone_once_witness :
  exists stats : UserStats,
    result_of
      (run (R := signed_out_authority)
         (getUserStats (Selected (Some sample_rows) VNull)) tt)
    = Returned stats /\
    (totalAdmins stats + totalClients stats = totalUsers stats <->
     Forall (fun u => get u "role" = VStr "admin"
                      \/ get u "role" = VStr "client") sample_rows).
Proof.
  apply (getUserStats_counts_everyone_once signed_out_authority sample_rows
           VNull tt); reflexivity.
Defined.

Lemma getUserStats_ignores_the_order_witness :
  result_of
    (run (R := signed_out_authority)
       (getUserStats (Selected (Some sample_rows) VNull)) tt)
  = result_of
      (run (R := signed_out_authority)
         (getUserStats (Selected (Some (List.rev sample_rows)) VNull)) tt).
Proof.
  apply (getUserStats_ignores_the_order signed_out_authority sample_rows
           (List.rev sample_rows) VNull tt);
    [apply Permutation_rev | reflexivity].
Defined.

(** The spec's listing: admins, ten at most, from the start; the search
    text is left out and sent as the empty string. *)
Lemma getAllUsers_returns_the_data_witness :
  let R := answering_authority
             {| success := true; message := "three records";
                user_id := None; user_email := None |} in
  let r := run (R := R)
             (getAllUsers sample_ToString VUndefined (VStr "admin") (VNum 10)
                VUndefined) tt in
  calls (trace_of r)
  = [users_request (VStr "") (VStr "admin") (VNum 10) (VNum 0)] /\
  exists data, result_of r = Returned data.
Proof.
  intros R r. split; [reflexivity |]. eexists.
  apply (getAllUsers_returns_the_data R sample_ToString VUndefined
           (VStr "admin") (VNum 10) VUndefined tt).
  eexists. repeat split; reflexivity.
Defined.

Lemma getAllAdmins_fails_loudly_witness :
  result_of
    (run (R := refusing_authority "permission denied")
       (getAllAdmins sample_ToString) tt)
  = Raised (new_Error "permission denied").
Proof.
  destruct (getAllAdmins_fails_loudly (refusing_authority "permission denied")
              sample_ToString tt) as (_ & _ & Htext & _).
  apply (Htext (response VNull (obj [("message", VStr "permission denied")]))
           "permission denied"); try reflexivity; discriminate.
Defined.
